(** * Device challan approval workflow: store and tool layer

    A shallow embedding of [database.py] (class [ChallanDatabase], the
    SQLite-backed request store) and of the approval tools of
    [mcp_server.py], followed by the properties of the three-stage
    approval workflow (Manager, then HOD, then IT Inventory).

    Conventions of the embedding:
    - a table is the list of its rows, oldest insertion first; a row of
      [challans] / [users] / [devices] is a record with the columns of the
      [CREATE TABLE] statement; TEXT columns are [string], a nullable
      column is an [option];
    - a timestamp is an integer; the order of the integers is the order in
      which SQLite compares the stored values;
    - every method of [ChallanDatabase] opens a connection, runs its
      statements and commits; it is a computation in the monad [DB]
      (state: the tables; error: the Python exception that escapes);
    - the clock ([datetime.now()], [CURRENT_TIMESTAMP]) is an explicit
      argument [now] of the methods that read it. *)

From Stdlib Require Import ZArith String Ascii List Bool Lia.
From Stdlib Require Import DecimalString DecimalZ DecimalPos Permutation Sorted.
Import ListNotations.

Local Open Scope string_scope.
Local Open Scope Z_scope.

(** ** Rows *)

Definition Timestamp := Z.

(** [CREATE TABLE devices] *)
Record Device := {
  dev_id : Z;
  dev_type : string;
  dev_model : string;
  category : string
}.

(** [CREATE TABLE users] *)
Record User := {
  user_id : Z;
  username : string;
  password : string;
  role : string;
  department : string;
  full_name : string
}.

(** [CREATE TABLE challans] *)
Record Challan := {
  id : Z;
  device_type : string;
  device_model : string;
  serial_number : string;
  quantity : Z;
  purpose : string;
  requested_by : string;
  request_date : Timestamp;
  manager_status : string;
  manager_approval_date : option Timestamp;
  hod_status : string;
  hod_approval_date : option Timestamp;
  it_status : string;
  it_approval_date : option Timestamp;
  final_status : string;
  remarks : option string
}.

Record Tables := {
  devices : list Device;
  users : list User;
  challans : list Challan
}.

Definition with_challans (rows : list Challan) (t : Tables) : Tables :=
  {| devices := devices t; users := users t; challans := rows |}.

(** [user['role']]: inside the tools [role] names the argument. *)
Definition user_role (u : User) : string := role u.

(** ** Exceptions and the store monad *)

Inductive Exception :=
| IntegrityError (msg : string)
| OverflowError (msg : string).

(** [str(e)] *)
Definition str (e : Exception) : string :=
  match e with
  | IntegrityError msg => msg
  | OverflowError msg => msg
  end.

Definition DB (A : Type) : Type := Tables -> (Exception + A) * Tables.

Definition ret {A} (a : A) : DB A := fun t => (inr a, t).

Definition raise {A} (e : Exception) : DB A := fun t => (inl e, t).

Definition bind {A B} (m : DB A) (k : A -> DB B) : DB B :=
  fun t =>
    match m t with
    | (inr a, t') => k a t'
    | (inl e, t') => (inl e, t')
    end.

Notation "x <- m ;; k" := (bind m (fun x => k))
  (at level 61, m at next level, right associativity).
Notation "m ;;; k" := (bind m (fun _ => k))
  (at level 61, right associativity).

Definition get_tables : DB Tables := fun t => (inr t, t).

(** The rows written by a statement, made durable by [conn.commit()]. *)
Definition commit_challans (rows : list Challan) : DB unit :=
  fun t => (inr tt, with_challans rows t).

(** ** SQLite parameter binding

    An INTEGER of SQLite is a signed 64-bit integer; the [sqlite3] module
    refuses to bind a Python [int] outside that range. *)

Definition fits_sqlite_integer (z : Z) : bool :=
  (- 2 ^ 63 <=? z) && (z <? 2 ^ 63).

(** The exception of a refused binding. *)
Definition overflow : Exception :=
  OverflowError "Python int too large to convert to SQLite INTEGER".

Definition bind_integer (z : Z) : DB unit :=
  if fits_sqlite_integer z then ret tt else raise overflow.

(** The exception of an INSERT that violates the UNIQUE constraint of
    column [serial_number]. *)
Definition duplicate_serial : Exception :=
  IntegrityError "UNIQUE constraint failed: challans.serial_number".

(** ** database.py: class ChallanDatabase *)

Module db.

(** [SELECT * FROM challans WHERE id = ?] followed by [fetchone()] *)
Definition select_challan (challan_id : Z) (rows : list Challan) : option Challan :=
  find (fun c => id c =? challan_id) rows.

(** [SELECT * FROM users WHERE username = ?] followed by [fetchone()] *)
Definition select_user (name : string) (rows : list User) : option User :=
  find (fun u => (username u =? name)%string) rows.

(** The rowid given to the next row of [challans] (INTEGER PRIMARY KEY
    AUTOINCREMENT): one more than the largest rowid the table has held.
    No statement of the program deletes a row, so that is the largest id
    present, and 0 for the empty table. *)
Definition next_rowid (rows : list Challan) : Z :=
  1 + fold_right (fun c m => Z.max (id c) m) 0 rows.

(** The UNIQUE constraint of column [serial_number]. *)
Definition serial_taken (sn : string) (rows : list Challan) : bool :=
  existsb (fun c => (serial_number c =? sn)%string) rows.

(** The arguments of [create_challan]: the dict [challan_data]. *)
Record ChallanData := {
  cd_device_type : string;
  cd_device_model : string;
  cd_serial_number : string;
  cd_quantity : Z;
  cd_purpose : string;
  cd_requested_by : string
}.

(** The row built by [INSERT INTO challans (device_type, device_model,
    serial_number, quantity, purpose, requested_by)]: the other columns
    take their DEFAULT, or NULL. *)
Definition new_row (rowid : Z) (now : Timestamp) (d : ChallanData) : Challan :=
  {| id := rowid;
     device_type := cd_device_type d;
     device_model := cd_device_model d;
     serial_number := cd_serial_number d;
     quantity := cd_quantity d;
     purpose := cd_purpose d;
     requested_by := cd_requested_by d;
     request_date := now;
     manager_status := "pending";
     manager_approval_date := None;
     hod_status := "pending";
     hod_approval_date := None;
     it_status := "pending";
     it_approval_date := None;
     final_status := "pending";
     remarks := None |}.

(** [create_challan(self, challan_data) -> int].  The FOREIGN KEY on
    [requested_by] is declared but SQLite does not enforce it unless
    [PRAGMA foreign_keys] is switched on, which the program never does. *)
Definition create_challan (now : Timestamp) (challan_data : ChallanData) : DB Z :=
  bind_integer (cd_quantity challan_data) ;;;
  t <- get_tables ;;
  if serial_taken (cd_serial_number challan_data) (challans t) then
    raise duplicate_serial
  else
    let challan_id := next_rowid (challans t) in
    commit_challans (challans t ++ [new_row challan_id now challan_data]) ;;;
    ret challan_id.

(** [get_challan_status(self, challan_id) -> Optional[Dict]] *)
Definition get_challan_status (challan_id : Z) : DB (option Challan) :=
  bind_integer challan_id ;;;
  t <- get_tables ;;
  ret (select_challan challan_id (challans t)).

(** [COALESCE(?, remarks)] *)
Definition coalesce (new old : option string) : option string :=
  match new with
  | Some r => Some r
  | None => old
  end.

(** [SET manager_status = ?, manager_approval_date = ?,
    remarks = COALESCE(?, remarks)] *)
Definition set_manager (status : string) (approval_date : Timestamp)
    (new_remarks : option string) (c : Challan) : Challan :=
  {| id := id c;
     device_type := device_type c;
     device_model := device_model c;
     serial_number := serial_number c;
     quantity := quantity c;
     purpose := purpose c;
     requested_by := requested_by c;
     request_date := request_date c;
     manager_status := status;
     manager_approval_date := Some approval_date;
     hod_status := hod_status c;
     hod_approval_date := hod_approval_date c;
     it_status := it_status c;
     it_approval_date := it_approval_date c;
     final_status := final_status c;
     remarks := coalesce new_remarks (remarks c) |}.

(** [SET hod_status = ?, hod_approval_date = ?,
    remarks = COALESCE(?, remarks)] *)
Definition set_hod (status : string) (approval_date : Timestamp)
    (new_remarks : option string) (c : Challan) : Challan :=
  {| id := id c;
     device_type := device_type c;
     device_model := device_model c;
     serial_number := serial_number c;
     quantity := quantity c;
     purpose := purpose c;
     requested_by := requested_by c;
     request_date := request_date c;
     manager_status := manager_status c;
     manager_approval_date := manager_approval_date c;
     hod_status := status;
     hod_approval_date := Some approval_date;
     it_status := it_status c;
     it_approval_date := it_approval_date c;
     final_status := final_status c;
     remarks := coalesce new_remarks (remarks c) |}.

(** [SET it_status = ?, it_approval_date = ?, final_status = ?,
    remarks = COALESCE(?, remarks)], the third parameter being [status]
    again. *)
Definition set_it (status : string) (approval_date : Timestamp)
    (new_remarks : option string) (c : Challan) : Challan :=
  {| id := id c;
     device_type := device_type c;
     device_model := device_model c;
     serial_number := serial_number c;
     quantity := quantity c;
     purpose := purpose c;
     requested_by := requested_by c;
     request_date := request_date c;
     manager_status := manager_status c;
     manager_approval_date := manager_approval_date c;
     hod_status := hod_status c;
     hod_approval_date := hod_approval_date c;
     it_status := status;
     it_approval_date := Some approval_date;
     final_status := status;
     remarks := coalesce new_remarks (remarks c) |}.

(** [UPDATE challans SET ... WHERE id = ?] *)
Definition update_where_id (challan_id : Z) (f : Challan -> Challan)
    (rows : list Challan) : list Challan :=
  map (fun c => if id c =? challan_id then f c else c) rows.

Definition execute_update (challan_id : Z) (f : Challan -> Challan) : DB unit :=
  bind_integer challan_id ;;;
  t <- get_tables ;;
  commit_challans (update_where_id challan_id f (challans t)).

(** [update_approval_status(self, challan_id, role, status, remarks=None)];
    [now] is [approval_date = datetime.now()]. *)
Definition update_approval_status (now : Timestamp) (challan_id : Z)
    (role status : string) (remarks : option string) : DB unit :=
  if (role =? "manager")%string then
    execute_update challan_id (set_manager status now remarks)
  else if (role =? "hod")%string then
    execute_update challan_id (set_hod status now remarks)
  else if (role =? "it_admin")%string then
    execute_update challan_id (set_it status now remarks)
  else
    ret tt.

(** [ORDER BY request_date DESC]: insertion into a list kept newest
    first. *)
Fixpoint insert_desc (c : Challan) (sorted : list Challan) : list Challan :=
  match sorted with
  | [] => [c]
  | d :: rest =>
      if request_date d <=? request_date c then c :: d :: rest
      else d :: insert_desc c rest
  end.

Definition order_by_request_date_desc (rows : list Challan) : list Challan :=
  fold_right insert_desc [] rows.

(** [get_all_challans(self, username=None)]; [if username:] holds for a
    string that is neither [None] nor empty. *)
Definition get_all_challans (name : option string) : DB (list Challan) :=
  t <- get_tables ;;
  match name with
  | Some (String a s) =>
      ret (order_by_request_date_desc
             (filter (fun c => (requested_by c =? String a s)%string) (challans t)))
  | _ => ret (order_by_request_date_desc (challans t))
  end.

(** [get_pending_approvals(self, role)]: for a role that matches no
    branch no statement is executed and [fetchall()] yields no row. *)
Definition get_pending_approvals (role : string) : DB (list Challan) :=
  t <- get_tables ;;
  if (role =? "manager")%string then
    ret (order_by_request_date_desc
           (filter (fun c => (manager_status c =? "pending")%string) (challans t)))
  else if (role =? "hod")%string then
    ret (order_by_request_date_desc
           (filter (fun c => (manager_status c =? "approved")%string
                             && (hod_status c =? "pending")%string) (challans t)))
  else if (role =? "it_admin")%string then
    ret (order_by_request_date_desc
           (filter (fun c => (manager_status c =? "approved")%string
                             && (hod_status c =? "approved")%string
                             && (it_status c =? "pending")%string) (challans t)))
  else
    ret [].

(** [get_user_by_username(self, username) -> Optional[Dict]] *)
Definition get_user_by_username (name : string) : DB (option User) :=
  t <- get_tables ;;
  ret (select_user name (users t)).

(** The status dictionary of [_generate_status_flow].  The three random
    draws [random.choices(status_options, ...)] are arguments, each one of
    the three entries of [status_options]; the dates and remarks of the
    sample rows are left out. *)
Record StatusFlow := {
  sf_manager_status : string;
  sf_hod_status : string;
  sf_it_status : string;
  sf_final_status : string
}.

Inductive StatusOption := pending | approved | rejected.

Definition status_text (s : StatusOption) : string :=
  match s with
  | pending => "pending"
  | approved => "approved"
  | rejected => "rejected"
  end.

Definition generate_status_flow (manager_draw hod_draw it_draw : StatusOption)
    : StatusFlow :=
  let manager_status := status_text manager_draw in
  if (manager_status =? "approved")%string then
    let hod_status := status_text hod_draw in
    if (hod_status =? "approved")%string then
      let it_status := status_text it_draw in
      if (it_status =? "approved")%string then
        {| sf_manager_status := manager_status; sf_hod_status := hod_status;
           sf_it_status := it_status; sf_final_status := "approved" |}
      else if (it_status =? "rejected")%string then
        {| sf_manager_status := manager_status; sf_hod_status := hod_status;
           sf_it_status := it_status; sf_final_status := "rejected" |}
      else
        {| sf_manager_status := manager_status; sf_hod_status := hod_status;
           sf_it_status := it_status; sf_final_status := "pending" |}
    else if (hod_status =? "rejected")%string then
      {| sf_manager_status := manager_status; sf_hod_status := hod_status;
         sf_it_status := "pending"; sf_final_status := "rejected" |}
    else
      {| sf_manager_status := manager_status; sf_hod_status := hod_status;
         sf_it_status := "pending"; sf_final_status := "pending" |}
  else if (manager_status =? "rejected")%string then
    {| sf_manager_status := manager_status; sf_hod_status := "pending";
       sf_it_status := "pending"; sf_final_status := "rejected" |}
  else
    {| sf_manager_status := manager_status; sf_hod_status := "pending";
       sf_it_status := "pending"; sf_final_status := "pending" |}.

(** [timedelta(days=n)], timestamps being counted in microseconds. *)
Definition days (n : Z) : Z := n * 86400000000.

(** The dictionary [_generate_status_flow] returns, dates and remarks
    included.  Besides the three draws of [random.choices] the arguments
    are the clock reading of the branch taken and the outcome of each
    [random.randint]: [manager_approved_days] of [randint(1, 20)],
    [hod_days] of [randint(1, 5)] after the manager date, [it_days] of
    [randint(1, 3)], [manager_rejected_days] of [randint(1, 5)]. *)
Record StatusFlowDict := {
  flow_manager_status : string;
  flow_manager_date : option Timestamp;
  flow_hod_status : string;
  flow_hod_date : option Timestamp;
  flow_it_status : string;
  flow_it_date : option Timestamp;
  flow_final_status : string;
  flow_remarks : option string
}.

Definition generate_status_flow_dict (now : Timestamp)
    (manager_draw hod_draw it_draw : StatusOption)
    (manager_approved_days hod_days it_days manager_rejected_days : Z)
    : StatusFlowDict :=
  let manager_status := status_text manager_draw in
  if (manager_status =? "approved")%string then
    let manager_date := now - days manager_approved_days in
    let hod_status := status_text hod_draw in
    if (hod_status =? "approved")%string then
      let hod_date := manager_date + days hod_days in
      let it_status := status_text it_draw in
      if (it_status =? "approved")%string then
        {| flow_manager_status := manager_status;
           flow_manager_date := Some manager_date;
           flow_hod_status := hod_status; flow_hod_date := Some hod_date;
           flow_it_status := it_status;
           flow_it_date := Some (hod_date + days it_days);
           flow_final_status := "approved";
           flow_remarks := Some "Device ready for allocation" |}
      else if (it_status =? "rejected")%string then
        {| flow_manager_status := manager_status;
           flow_manager_date := Some manager_date;
           flow_hod_status := hod_status; flow_hod_date := Some hod_date;
           flow_it_status := it_status;
           flow_it_date := Some (hod_date + days 1);
           flow_final_status := "rejected";
           flow_remarks :=
             Some "Inventory shortage - check back in 2 weeks" |}
      else
        {| flow_manager_status := manager_status;
           flow_manager_date := Some manager_date;
           flow_hod_status := hod_status; flow_hod_date := Some hod_date;
           flow_it_status := it_status; flow_it_date := None;
           flow_final_status := "pending"; flow_remarks := None |}
    else if (hod_status =? "rejected")%string then
      {| flow_manager_status := manager_status;
         flow_manager_date := Some manager_date;
         flow_hod_status := hod_status;
         flow_hod_date := Some (manager_date + days 1);
         flow_it_status := "pending"; flow_it_date := None;
         flow_final_status := "rejected";
         flow_remarks := Some "Budget constraints - request denied" |}
    else
      {| flow_manager_status := manager_status;
         flow_manager_date := Some manager_date;
         flow_hod_status := hod_status; flow_hod_date := None;
         flow_it_status := "pending"; flow_it_date := None;
         flow_final_status := "pending"; flow_remarks := None |}
  else if (manager_status =? "rejected")%string then
    {| flow_manager_status := manager_status;
       flow_manager_date := Some (now - days manager_rejected_days);
       flow_hod_status := "pending"; flow_hod_date := None;
       flow_it_status := "pending"; flow_it_date := None;
       flow_final_status := "rejected";
       flow_remarks := Some "Not aligned with department goals" |}
  else
    {| flow_manager_status := manager_status; flow_manager_date := None;
       flow_hod_status := "pending"; flow_hod_date := None;
       flow_it_status := "pending"; flow_it_date := None;
       flow_final_status := "pending"; flow_remarks := None |}.

(** A row of the result of [get_available_devices]: the three selected
    columns. *)
Record CatalogEntry := {
  ce_device_type : string;
  ce_device_model : string;
  ce_category : string
}.

Definition entry_of (d : Device) : CatalogEntry :=
  {| ce_device_type := dev_type d; ce_device_model := dev_model d;
     ce_category := category d |}.

Definition CatalogEntry_eq_dec (a b : CatalogEntry) : {a = b} + {a <> b}.
Proof. decide equality; apply string_dec. Defined.

(** [ORDER BY device_type, device_model], strings compared byte by byte:
    [a] sorts no later than [b]. *)
Definition catalog_le (a b : CatalogEntry) : bool :=
  match String.compare (ce_device_type a) (ce_device_type b) with
  | Lt => true
  | Gt => false
  | Eq => String.leb (ce_device_model a) (ce_device_model b)
  end.

Fixpoint insert_entry (e : CatalogEntry) (sorted : list CatalogEntry)
    : list CatalogEntry :=
  match sorted with
  | [] => [e]
  | d :: rest =>
      if catalog_le e d then e :: d :: rest else d :: insert_entry e rest
  end.

(** [get_available_devices(self)]: [SELECT DISTINCT device_type,
    device_model, category FROM devices ORDER BY device_type,
    device_model]. *)
Definition get_available_devices : DB (list CatalogEntry) :=
  t <- get_tables ;;
  ret (fold_right insert_entry []
         (nodup CatalogEntry_eq_dec (map entry_of (devices t)))).

(** [init_db(self)]: the three tables are dropped and created again,
    empty. *)
Definition init_db : DB unit :=
  fun _ => (inr tt, {| devices := []; users := []; challans := [] |}).

(** The list [samsung_devices] of [populate_sample_data]. *)
Definition samsung_devices : list (string * string * string) :=
  [ ("phone", "Samsung Galaxy S23 Ultra", "Flagship");
    ("phone", "Samsung Galaxy S23+", "Premium");
    ("phone", "Samsung Galaxy S23", "Premium");
    ("phone", "Samsung Galaxy Z Fold 5", "Foldable");
    ("phone", "Samsung Galaxy Z Flip 5", "Foldable");
    ("phone", "Samsung Galaxy A54", "Mid-range");
    ("phone", "Samsung Galaxy A34", "Mid-range");
    ("phone", "Samsung Galaxy M54", "Budget");
    ("tablet", "Samsung Galaxy Tab S9 Ultra", "Flagship Tablet");
    ("tablet", "Samsung Galaxy Tab S9+", "Premium Tablet");
    ("tablet", "Samsung Galaxy Tab S9", "Premium Tablet");
    ("tablet", "Samsung Galaxy Tab A8", "Budget Tablet");
    ("tablet", "Samsung Galaxy Tab A7 Lite", "Entry Tablet");
    ("tablet", "Samsung Galaxy Tab Active 4 Pro", "Rugged Tablet") ].

(** The list [users] of [populate_sample_data]: username, password, role,
    department, full name. *)
Definition users_data : list (string * string * string * string * string) :=
  [ ("john_manager", "password123", "manager", "Operations", "John Manager");
    ("sara_director", "password123", "manager", "Sales", "Sara Director");
    ("mike_hod", "password123", "hod", "IT", "Mike HOD");
    ("lisa_hod", "password123", "hod", "Finance", "Lisa HOD");
    ("tech_admin", "password123", "it_admin", "IT Inventory", "Tech Admin");
    ("inventory_mgr", "password123", "it_admin", "IT Inventory",
     "Inventory Manager");
    ("alice_sales", "password123", "user", "Sales", "Alice Sales");
    ("bob_marketing", "password123", "user", "Marketing", "Bob Marketing");
    ("charlie_ops", "password123", "user", "Operations", "Charlie Ops");
    ("diana_hr", "password123", "user", "HR", "Diana HR") ].

(** [[u for u in users if u[2] == 'user']] *)
Definition regular_users : list (string * string * string * string * string) :=
  filter (fun u => match u with
                   | (_, _, r, _, _) => (r =? "user")%string
                   end) users_data.

(** The rowids AUTOINCREMENT gives in [devices] and [users]. *)
Definition next_device_id (rows : list Device) : Z :=
  1 + fold_right (fun d m => Z.max (dev_id d) m) 0 rows.

Definition next_user_id (rows : list User) : Z :=
  1 + fold_right (fun u m => Z.max (user_id u) m) 0 rows.

(** [cursor.executemany('INSERT INTO devices (device_type, device_model,
    category) VALUES (?, ?, ?)', ...)] *)
Definition insert_devices (data : list (string * string * string))
    (rows : list Device) : list Device :=
  fold_left
    (fun (rows : list Device) (d : string * string * string) =>
       match d with
       | (ty, model, cat) =>
           (rows ++ [ {| dev_id := next_device_id rows; dev_type := ty;
                         dev_model := model; category := cat |} ])%list
       end)
    data rows.

(** [cursor.executemany('INSERT INTO users (username, password, role,
    department, full_name) VALUES (?, ?, ?, ?, ?)', ...)]; [username] is
    UNIQUE. *)
Definition insert_users
    (data : list (string * string * string * string * string))
    (rows : list User) : Exception + list User :=
  fold_left
    (fun acc u =>
       match acc, u with
       | inl e, _ => inl e
       | inr rows, (name, pw, r, dept, full) =>
           if existsb (fun v => (username v =? name)%string) rows then
             inl (IntegrityError "UNIQUE constraint failed: users.username")
           else
             inr (rows ++ [ {| user_id := next_user_id rows; username := name;
                               password := pw; role := r; department := dept;
                               full_name := full |} ])%list
       end)
    data (inr rows).

(** What one turn of the loop of [populate_sample_data] draws at random,
    in the order of the calls, together with the two clock readings of the
    turn. *)
Record SampleDraw := {
  draw_device : string * string * string;
  draw_user : string * string * string * string * string;
  draw_purpose : string;
  draw_serial : Z;
  draw_quantity : Z;
  draw_request_now : Timestamp;
  draw_request_days : Z;
  draw_flow_now : Timestamp;
  draw_manager : StatusOption;
  draw_hod : StatusOption;
  draw_it : StatusOption;
  draw_manager_approved_days : Z;
  draw_hod_days : Z;
  draw_it_days : Z;
  draw_manager_rejected_days : Z
}.

(** [f"SN{random.randint(1000000000, 9999999999)}"] *)
Definition serial_text (n : Z) : string :=
  "SN" ++ NilZero.string_of_int (Z.to_int n).

(** [status_flow = self._generate_status_flow()] *)
Definition draw_status_flow (d : SampleDraw) : StatusFlowDict :=
  generate_status_flow_dict (draw_flow_now d) (draw_manager d) (draw_hod d)
    (draw_it d) (draw_manager_approved_days d) (draw_hod_days d)
    (draw_it_days d) (draw_manager_rejected_days d).

(** The row [challan_data] of one turn, inserted under [rowid]. *)
Definition sample_row (rowid : Z) (d : SampleDraw) : Challan :=
  let status_flow := draw_status_flow d in
  {| id := rowid;
     device_type := fst (fst (draw_device d));
     device_model := snd (fst (draw_device d));
     serial_number := serial_text (draw_serial d);
     quantity := draw_quantity d;
     purpose := draw_purpose d;
     requested_by :=
       match draw_user d with (name, _, _, _, _) => name end;
     request_date := draw_request_now d - days (draw_request_days d);
     manager_status := flow_manager_status status_flow;
     manager_approval_date := flow_manager_date status_flow;
     hod_status := flow_hod_status status_flow;
     hod_approval_date := flow_hod_date status_flow;
     it_status := flow_it_status status_flow;
     it_approval_date := flow_it_date status_flow;
     final_status := flow_final_status status_flow;
     remarks := flow_remarks status_flow |}.

(** The INSERT of one turn, on the rows inserted so far. *)
Definition insert_sample (acc : Exception + list Challan) (d : SampleDraw)
    : Exception + list Challan :=
  match acc with
  | inl e => inl e
  | inr rows =>
      if negb (fits_sqlite_integer (draw_quantity d)) then inl overflow
      else if serial_taken (serial_text (draw_serial d)) rows then
        inl duplicate_serial
      else inr (rows ++ [sample_row (next_rowid rows) d])%list
  end.

(** [populate_sample_data(self)]; [draw i] is what turn [i] of
    [for i in range(1, 21)] draws.  All rows are inserted in one
    transaction, committed after the loop: an exception leaves the tables
    as they were.  The [print] calls are left out. *)
Definition populate_sample_data (draw : Z -> SampleDraw) : DB unit :=
  fun t =>
    match insert_users users_data (users t) with
    | inl e => (inl e, t)
    | inr users' =>
        match fold_left insert_sample (map draw (map Z.of_nat (seq 1 20)))
                (inr (challans t)) with
        | inl e => (inl e, t)
        | inr challans' =>
            (inr tt,
             {| devices := insert_devices samsung_devices (devices t);
                users := users';
                challans := challans' |})
        end
    end.

(** [ChallanDatabase.__init__]: [self.init_db()] and then
    [self.populate_sample_data()]. *)
Definition ChallanDatabase (draw : Z -> SampleDraw) : DB unit :=
  init_db ;;; populate_sample_data draw.

End db.

(** ** mcp_server.py: the tools *)

Module mcp_server.

(** What a tool returns: one constructor for each [return] statement of
    [create_challan], [approve_challan] and [reject_challan]; [text] gives
    the string itself. *)
Inductive Reply :=
| UserNotFound (requested_by : string)
| ChallanCreated (challan_id : Z) (device_model requested_by : string)
| ErrorCreating (e : Exception)
| ChallanNotFound (challan_id : Z)
| ApproverNotFound (approver_username : string)
| RoleNotHeld (user_name role : string)
| HodBeforeManager
| ItBeforeManagerAndHod
| Approved (challan_id : Z) (approver_username role : string)
    (remarks : option string)
| ErrorApproving (e : Exception)
| RejecterNotFound (rejecter_username : string)
| Rejected (challan_id : Z) (rejecter_username role rejection_reason : string)
| ErrorRejecting (e : Exception).

Definition nl : string := String (ascii_of_nat 10) "".

(** [str(n)] for an [int] *)
Definition str_int (n : Z) : string := NilZero.string_of_int (Z.to_int n).

Definition text (r : Reply) : string :=
  match r with
  | UserNotFound requested_by =>
      "Error: User '" ++ requested_by
        ++ "' not found. Please provide a valid username."
  | ChallanCreated challan_id device_model requested_by =>
      "Challan created successfully! 🎉" ++ nl ++ nl
        ++ "Challan ID: " ++ str_int challan_id ++ nl
        ++ "Device: " ++ device_model ++ nl
        ++ "Requested by: " ++ requested_by ++ nl
        ++ "Status: Pending Manager Approval" ++ nl ++ nl
        ++ "Your request will now go through the approval workflow:" ++ nl
        ++ "1. Manager Approval → 2. HOD Approval → 3. IT Inventory Approval"
  | ErrorCreating e => "Error creating challan: " ++ str e
  | ChallanNotFound challan_id =>
      "Error: Challan with ID " ++ str_int challan_id ++ " not found."
  | ApproverNotFound approver_username =>
      "Error: Approver '" ++ approver_username ++ "' not found."
  | RoleNotHeld user_name role =>
      "Error: User '" ++ user_name ++ "' does not have required role '"
        ++ role ++ "'."
  | HodBeforeManager =>
      "Error: Cannot approve at HOD level before Manager approval."
  | ItBeforeManagerAndHod =>
      "Error: Cannot approve at IT level before Manager and HOD approvals."
  | Approved challan_id approver_username role remarks =>
      "Approved successfully!" ++ nl ++ nl
        ++ "Challan ID: " ++ str_int challan_id ++ nl
        ++ "Approved by: " ++ approver_username ++ " (" ++ role ++ ")" ++ nl
        ++ (if (role =? "it_admin")%string then
              " Final approval complete! Device is ready for allocation." ++ nl
            else
              "Now waiting for "
                ++ (if (role =? "manager")%string then "HOD" else "IT Inventory")
                ++ " approval." ++ nl)
        ++ match remarks with
           | Some (String a s) => " Remarks: " ++ String a s ++ nl
           | _ => ""
           end
  | ErrorApproving e => "Error approving challan: " ++ str e
  | RejecterNotFound rejecter_username =>
      "Error: Rejecter '" ++ rejecter_username ++ "' not found."
  | Rejected challan_id rejecter_username role rejection_reason =>
      " Challan rejected successfully!" ++ nl ++ nl
        ++ "Challan ID: " ++ str_int challan_id ++ nl
        ++ "Rejected by: " ++ rejecter_username ++ " (" ++ role ++ ")" ++ nl
        ++ "Reason: " ++ rejection_reason ++ nl ++ nl
        ++ "The approval process has been stopped. "
        ++ "The requester may need to submit a new request with updated information."
  | ErrorRejecting e => "Error rejecting challan: " ++ str e
  end.

(** A tool body wrapped in [try: ... except Exception as e: return ...]:
    it always returns a reply, together with the tables as the committed
    statements left them. *)
Definition tool (body : DB Reply) (on_exception : Exception -> Reply)
    : Tables -> Reply * Tables :=
  fun t =>
    match body t with
    | (inr r, t') => (r, t')
    | (inl e, t') => (on_exception e, t')
    end.

(** [create_challan(device_type, device_model, serial_number, quantity,
    purpose, requested_by) -> str] *)
Definition create_challan (now : Timestamp)
    (device_type device_model serial_number : string) (quantity : Z)
    (purpose requested_by : string) : Tables -> Reply * Tables :=
  tool
    (user <- db.get_user_by_username requested_by ;;
     match user with
     | None => ret (UserNotFound requested_by)
     | Some _ =>
         let challan_data :=
           {| db.cd_device_type := device_type;
              db.cd_device_model := device_model;
              db.cd_serial_number := serial_number;
              db.cd_quantity := quantity;
              db.cd_purpose := purpose;
              db.cd_requested_by := requested_by |} in
         challan_id <- db.create_challan now challan_data ;;
         ret (ChallanCreated challan_id device_model requested_by)
     end)
    ErrorCreating.

(** [approve_challan(challan_id, role, approver_username, remarks=None)
    -> str] *)
Definition approve_challan (now : Timestamp) (challan_id : Z)
    (role approver_username : string) (remarks : option string)
    : Tables -> Reply * Tables :=
  tool
    (challan <- db.get_challan_status challan_id ;;
     match challan with
     | None => ret (ChallanNotFound challan_id)
     | Some challan =>
         approver <- db.get_user_by_username approver_username ;;
         match approver with
         | None => ret (ApproverNotFound approver_username)
         | Some approver =>
             if negb (user_role approver =? role)%string then
               ret (RoleNotHeld approver_username role)
             else if (role =? "hod")%string
                     && negb (manager_status challan =? "approved")%string then
               ret HodBeforeManager
             else if (role =? "it_admin")%string
                     && (negb (manager_status challan =? "approved")%string
                         || negb (hod_status challan =? "approved")%string) then
               ret ItBeforeManagerAndHod
             else
               db.update_approval_status now challan_id role "approved" remarks ;;;
               updated_challan <- db.get_challan_status challan_id ;;
               ret (Approved challan_id approver_username role remarks)
         end
     end)
    ErrorApproving.

(** [reject_challan(challan_id, role, rejecter_username, rejection_reason)
    -> str] *)
Definition reject_challan (now : Timestamp) (challan_id : Z)
    (role rejecter_username rejection_reason : string)
    : Tables -> Reply * Tables :=
  tool
    (challan <- db.get_challan_status challan_id ;;
     match challan with
     | None => ret (ChallanNotFound challan_id)
     | Some challan =>
         rejecter <- db.get_user_by_username rejecter_username ;;
         match rejecter with
         | None => ret (RejecterNotFound rejecter_username)
         | Some rejecter =>
             if negb (user_role rejecter =? role)%string then
               ret (RoleNotHeld rejecter_username role)
             else
               db.update_approval_status now challan_id role "rejected"
                 (Some rejection_reason) ;;;
               ret (Rejected challan_id rejecter_username role rejection_reason)
         end
     end)
    ErrorRejecting.

(** *** The tools and the resource that only read *)

(** The dict [summary] of the resource [get_pending_approvals], which
    returns it as [json.dumps(summary, indent=2)]; [last_updated] is the
    clock reading whose [isoformat()] the dict holds. *)
Record PendingSummary := {
  manager_pending : nat;
  hod_pending : nat;
  it_pending : nat;
  total_pending : nat;
  last_updated : Timestamp
}.

Definition pending_summary (now : Timestamp) : DB PendingSummary :=
  pending_manager <- db.get_pending_approvals "manager" ;;
  pending_hod <- db.get_pending_approvals "hod" ;;
  pending_it <- db.get_pending_approvals "it_admin" ;;
  ret {| manager_pending := length pending_manager;
         hod_pending := length pending_hod;
         it_pending := length pending_it;
         total_pending :=
           (length pending_manager + length pending_hod
            + length pending_it)%nat;
         last_updated := now |}.

(** What the reading tools return: one constructor for each [return]
    statement of [get_challan_status], [list_my_challans],
    [get_pending_approvals_for_role] and [get_available_samsung_devices];
    [report_text] gives the string itself. *)
Inductive Report :=
| StatusNotFound (challan_id : Z)
| StatusMessage (challan_id : Z) (challan : Challan)
| ListingUserNotFound (user_name : string)
| NoChallansFound (user_name : string)
| MyChallans (user_name : string) (rows : list Challan)
| ErrorRetrievingChallans (e : Exception)
| ListingRoleNotHeld (user_name role : string)
| NoChallansPending (role : string)
| PendingChallans (role : string) (rows : list Challan)
| ErrorRetrievingPending (e : Exception)
| NoDevices
| DeviceListing (devices : list db.CatalogEntry)
| ErrorRetrievingDevices (e : Exception).

(** The grouping loop of [get_available_samsung_devices]: the dict
    [devices_by_type], its keys in the order of their first insertion. *)
Fixpoint append_to_group (device : db.CatalogEntry)
    (groups : list (string * list db.CatalogEntry))
    : list (string * list db.CatalogEntry) :=
  match groups with
  | [] => [(db.ce_device_type device, [device])]
  | (key, members) :: rest =>
      if (key =? db.ce_device_type device)%string then
        (key, (members ++ [device])%list) :: rest
      else (key, members) :: append_to_group device rest
  end.

Definition group_by_type (devices : list db.CatalogEntry)
    : list (string * list db.CatalogEntry) :=
  fold_left (fun groups device => append_to_group device groups) devices [].

(** The progress analysis that ends the status message. *)
Definition progress_analysis (challan : Challan) : string :=
  if (final_status challan =? "approved")%string then
    "🎉 Fully approved! Device is ready for allocation." ++ nl
  else if (final_status challan =? "rejected")%string then
    if (manager_status challan =? "rejected")%string then
      " Rejected at Manager level." ++ nl
    else if (hod_status challan =? "rejected")%string then
      " Rejected at HOD level." ++ nl
    else if (it_status challan =? "rejected")%string then
      " Rejected at IT Inventory level." ++ nl
    else ""
  else
    if (manager_status challan =? "pending")%string then
      " Waiting for Manager approval..." ++ nl
    else if (hod_status challan =? "pending")%string then
      " Waiting for HOD approval..." ++ nl
    else if (it_status challan =? "pending")%string then
      " Waiting for IT Inventory approval..." ++ nl
    else "".

(** The stage line of an entry of [list_my_challans]. *)
Definition waiting_line (challan : Challan) : string :=
  if (final_status challan =? "pending")%string then
    if (manager_status challan =? "pending")%string then
      "    Waiting for Manager approval" ++ nl
    else if (hod_status challan =? "pending")%string then
      "    Waiting for HOD approval" ++ nl
    else if (it_status challan =? "pending")%string then
      "    Waiting for IT approval" ++ nl
    else ""
  else "".

Section Formatting.

(** [s.upper()], and the text of a stored timestamp as an f-string prints
    it. *)
Variable upper : string -> string.
Variable show_timestamp : Timestamp -> string.

Definition date_line (date : option Timestamp) : string :=
  match date with
  | Some d => "     Date: " ++ show_timestamp d ++ nl
  | None => ""
  end.

(** The message built by [get_challan_status]. *)
Definition status_message (challan_id : Z) (challan : Challan) : string :=
  " Challan ID: " ++ str_int challan_id ++ nl
    ++ " Device: " ++ device_model challan ++ nl
    ++ " Requested by: " ++ requested_by challan ++ nl
    ++ " Request date: " ++ show_timestamp (request_date challan) ++ nl
    ++ " Purpose: " ++ purpose challan ++ nl ++ nl
    ++ " Approval Status:" ++ nl
    ++ "   • Manager: " ++ upper (manager_status challan) ++ nl
    ++ date_line (manager_approval_date challan)
    ++ "   • HOD: " ++ upper (hod_status challan) ++ nl
    ++ date_line (hod_approval_date challan)
    ++ "   • IT Inventory: " ++ upper (it_status challan) ++ nl
    ++ date_line (it_approval_date challan)
    ++ nl ++ " Final Status: " ++ upper (final_status challan) ++ nl
    ++ match remarks challan with
       | Some (String a s) => " Remarks: " ++ String a s ++ nl
       | _ => ""
       end
    ++ nl ++ " Progress Analysis:" ++ nl
    ++ progress_analysis challan.

(** The body of the loop of [list_my_challans], [i] counting from 1. *)
Fixpoint my_challans_entries (i : Z) (rows : list Challan) : string :=
  match rows with
  | [] => ""
  | challan :: rest =>
      str_int i ++ ". Challan ID: " ++ str_int (id challan) ++ nl
        ++ "   Device: " ++ device_model challan ++ nl
        ++ "   Status: " ++ upper (final_status challan) ++ nl
        ++ "   Requested: " ++ show_timestamp (request_date challan) ++ nl
        ++ waiting_line challan
        ++ nl
        ++ my_challans_entries (i + 1) rest
  end.

(** The body of the loop of [get_pending_approvals_for_role]. *)
Fixpoint pending_entries (i : Z) (rows : list Challan) : string :=
  match rows with
  | [] => ""
  | challan :: rest =>
      str_int i ++ ". Challan ID: " ++ str_int (id challan) ++ nl
        ++ "   Device: " ++ device_model challan ++ nl
        ++ "   Requested by: " ++ requested_by challan ++ nl
        ++ "   Purpose: " ++ purpose challan ++ nl
        ++ "   Requested: " ++ show_timestamp (request_date challan)
        ++ nl ++ nl
        ++ pending_entries (i + 1) rest
  end.

Fixpoint device_lines (type_devices : list db.CatalogEntry) : string :=
  match type_devices with
  | [] => ""
  | device :: rest =>
      "  • " ++ db.ce_device_model device ++ " ("
        ++ db.ce_category device ++ ")" ++ nl
        ++ device_lines rest
  end.

Fixpoint group_sections (groups : list (string * list db.CatalogEntry))
    : string :=
  match groups with
  | [] => ""
  | (device_type, type_devices) :: rest =>
      "#" ++ upper device_type ++ "S:" ++ nl
        ++ device_lines type_devices ++ nl
        ++ group_sections rest
  end.

Definition report_text (r : Report) : string :=
  match r with
  | StatusNotFound challan_id =>
      " Challan with ID " ++ str_int challan_id ++ " not found."
  | StatusMessage challan_id challan => status_message challan_id challan
  | ListingUserNotFound user_name =>
      "Error: User '" ++ user_name ++ "' not found."
  | NoChallansFound user_name =>
      "No challans found for user '" ++ user_name ++ "'."
  | MyChallans user_name rows =>
      " Challans for " ++ user_name ++ ":" ++ nl ++ nl
        ++ my_challans_entries 1 rows
        ++ "Total: " ++ str_int (Z.of_nat (length rows)) ++ " challan(s)"
  | ErrorRetrievingChallans e => "Error retrieving challans: " ++ str e
  | ListingRoleNotHeld user_name role =>
      "Error: User '" ++ user_name ++ "' does not have required role '"
        ++ role ++ "'."
  | NoChallansPending role => "No challans pending " ++ role ++ " approval."
  | PendingChallans role rows =>
      "⏳ Challans pending " ++ upper role ++ " approval:" ++ nl ++ nl
        ++ pending_entries 1 rows
        ++ "Total pending: " ++ str_int (Z.of_nat (length rows))
  | ErrorRetrievingPending e =>
      "Error retrieving pending approvals: " ++ str e
  | NoDevices => "No devices available in the database."
  | DeviceListing devices =>
      "📱 Available Samsung Devices:" ++ nl ++ nl
        ++ group_sections (group_by_type devices)
        ++ "Total devices: " ++ str_int (Z.of_nat (length devices))
        ++ " models"
  | ErrorRetrievingDevices e => "Error retrieving devices: " ++ str e
  end.

End Formatting.

(** [get_challan_status(challan_id) -> str]: the one tool without a
    [try]; an exception of the store escapes it. *)
Definition get_challan_status (challan_id : Z) : DB Report :=
  challan <- db.get_challan_status challan_id ;;
  match challan with
  | None => ret (StatusNotFound challan_id)
  | Some challan => ret (StatusMessage challan_id challan)
  end.

(** A reading tool wrapped in [try: ... except Exception as e:
    return ...]. *)
Definition reading_tool (body : DB Report) (on_exception : Exception -> Report)
    : Tables -> Report * Tables :=
  fun t =>
    match body t with
    | (inr r, t') => (r, t')
    | (inl e, t') => (on_exception e, t')
    end.

(** [list_my_challans(username) -> str] *)
Definition list_my_challans (user_name : string) : Tables -> Report * Tables :=
  reading_tool
    (user <- db.get_user_by_username user_name ;;
     match user with
     | None => ret (ListingUserNotFound user_name)
     | Some _ =>
         challans <- db.get_all_challans (Some user_name) ;;
         match challans with
         | [] => ret (NoChallansFound user_name)
         | _ :: _ => ret (MyChallans user_name challans)
         end
     end)
    ErrorRetrievingChallans.

(** [get_pending_approvals_for_role(role, username) -> str] *)
Definition get_pending_approvals_for_role (role user_name : string)
    : Tables -> Report * Tables :=
  reading_tool
    (user <- db.get_user_by_username user_name ;;
     match user with
     | None => ret (ListingUserNotFound user_name)
     | Some user =>
         if negb (user_role user =? role)%string then
           ret (ListingRoleNotHeld user_name role)
         else
           pending_challans <- db.get_pending_approvals role ;;
           match pending_challans with
           | [] => ret (NoChallansPending role)
           | _ :: _ => ret (PendingChallans role pending_challans)
           end
     end)
    ErrorRetrievingPending.

(** [get_available_samsung_devices() -> str] *)
Definition get_available_samsung_devices : Tables -> Report * Tables :=
  reading_tool
    (devices <- db.get_available_devices ;;
     match devices with
     | [] => ret NoDevices
     | _ :: _ => ret (DeviceListing devices)
     end)
    ErrorRetrievingDevices.

End mcp_server.

(** ** The workflow rules the properties are stated with *)

(** The three approval stages, by the role string that targets them. *)
Definition is_stage (role : string) : Prop :=
  role = "manager" \/ role = "hod" \/ role = "it_admin".

(** The derivation of the final status from the three stage statuses:
    approved when all three are approved, rejected when one of them is
    rejected, pending otherwise. *)
Definition derive_final_status (manager hod it : string) : string :=
  if (manager =? "approved")%string && (hod =? "approved")%string
     && (it =? "approved")%string
  then "approved"
  else if (manager =? "rejected")%string || (hod =? "rejected")%string
          || (it =? "rejected")%string
  then "rejected"
  else "pending".

Definition derived_final_status (c : Challan) : string :=
  derive_final_status (manager_status c) (hod_status c) (it_status c).

(** The guard table of the state machine: the stage itself is pending and
    every stage before it is approved. *)
Definition guard (role : string) (c : Challan) : bool :=
  if (role =? "manager")%string then
    (manager_status c =? "pending")%string
  else if (role =? "hod")%string then
    (manager_status c =? "approved")%string
    && (hod_status c =? "pending")%string
  else if (role =? "it_admin")%string then
    (manager_status c =? "approved")%string
    && (hod_status c =? "approved")%string
    && (it_status c =? "pending")%string
  else false.

(** The part of the guard table that looks at the earlier stages only. *)
Definition earlier_stages_approved (role : string) (c : Challan) : bool :=
  if (role =? "manager")%string then true
  else if (role =? "hod")%string then
    (manager_status c =? "approved")%string
  else if (role =? "it_admin")%string then
    (manager_status c =? "approved")%string
    && (hod_status c =? "approved")%string
  else false.

(** The status column of the stage a role targets. *)
Definition stage_status (role : string) (c : Challan) : string :=
  if (role =? "manager")%string then manager_status c
  else if (role =? "hod")%string then hod_status c
  else it_status c.

(** The replies that report an approval out of sequence. *)
Definition sequence_violation (r : mcp_server.Reply) : Prop :=
  r = mcp_server.HodBeforeManager \/ r = mcp_server.ItBeforeManagerAndHod.

(** The replies that report a failure of the call. *)
Definition is_failure (r : mcp_server.Reply) : bool :=
  match r with
  | mcp_server.ChallanCreated _ _ _
  | mcp_server.Approved _ _ _ _
  | mcp_server.Rejected _ _ _ _ => false
  | _ => true
  end.

(** The columns fixed when the row is created. *)
Definition same_description (c c' : Challan) : Prop :=
  id c' = id c /\
  device_type c' = device_type c /\
  device_model c' = device_model c /\
  serial_number c' = serial_number c /\
  quantity c' = quantity c /\
  purpose c' = purpose c /\
  requested_by c' = requested_by c /\
  request_date c' = request_date c.

(** What a transition aimed at [role] may touch in a row: the status and
    date of that stage, the remarks and the final status; nothing else. *)
Definition touches_only_stage (role : string) (c c' : Challan) : Prop :=
  same_description c c' /\
  (role <> "manager" ->
   manager_status c' = manager_status c /\
   manager_approval_date c' = manager_approval_date c) /\
  (role <> "hod" ->
   hod_status c' = hod_status c /\
   hod_approval_date c' = hod_approval_date c) /\
  (role <> "it_admin" ->
   it_status c' = it_status c /\
   it_approval_date c' = it_approval_date c).

(** The last remarks that is not null among [writes], oldest first. *)
Fixpoint last_non_null (writes : list (option string)) : option string :=
  match writes with
  | [] => None
  | w :: later =>
      match last_non_null later with
      | Some r => Some r
      | None => w
      end
  end.

(** A stage decision as the store receives it. *)
Record Decision := {
  d_time : Timestamp;
  d_role : string;
  d_status : string;
  d_remarks : option string
}.

(** The decisions [ds] applied to one request, oldest first. *)
Fixpoint apply_decisions (challan_id : Z) (ds : list Decision) : DB unit :=
  match ds with
  | [] => ret tt
  | d :: later =>
      db.update_approval_status (d_time d) challan_id (d_role d) (d_status d)
        (d_remarks d) ;;;
      apply_decisions challan_id later
  end.

(** Serial numbers are pairwise distinct. *)
Definition serials_unique (rows : list Challan) : Prop :=
  NoDup (map serial_number rows).

(** The number of rows that carry a serial number. *)
Definition count_serial (sn : string) (rows : list Challan) : nat :=
  length (filter (fun c => (serial_number c =? sn)%string) rows).

(** Newest request first. *)
Definition newest_first (rows : list Challan) : Prop :=
  StronglySorted (fun a b => request_date b <= request_date a) rows.

(** The validation a create call is said to perform: a quantity of zero or
    less, an empty serial number and an unknown requester each make the
    call fail and insert nothing. *)
Definition create_validates_input : Prop :=
  forall (now : Timestamp) (dt dm sn : string) (q : Z) (p rb : string)
         (t : Tables),
    let result := mcp_server.create_challan now dt dm sn q p rb t in
    (q <= 0 -> is_failure (fst result) = true /\ snd result = t) /\
    (sn = "" -> is_failure (fst result) = true /\ snd result = t) /\
    (db.select_user rb (users t) = None ->
     fst result = mcp_server.UserNotFound rb /\ snd result = t).

(** The guard table read as the rule of every decide call: a call by a
    user who holds the role of the targeted stage is accepted when the
    guard of the stage holds and fails with a sequence violation, writing
    nothing, when it does not. *)
Definition decide_follows_guard_table : Prop :=
  forall (now : Timestamp) (i : Z) (role actor reason : string)
         (rm : option string) (t : Tables) (c : Challan) (u : User),
    is_stage role ->
    db.get_challan_status i t = (inr (Some c), t) ->
    db.get_user_by_username actor t = (inr (Some u), t) ->
    user_role u = role ->
    let approve := mcp_server.approve_challan now i role actor rm t in
    let reject := mcp_server.reject_challan now i role actor reason t in
    (guard role c = true ->
     is_failure (fst approve) = false /\ is_failure (fst reject) = false) /\
    (guard role c = false ->
     sequence_violation (fst approve) /\ snd approve = t /\
     sequence_violation (fst reject) /\ snd reject = t).

(** ** Tables used in the examples: the users of [populate_sample_data]
    and hand-picked requests *)

Definition mk_user (n : Z) (name pw r dept full : string) : User :=
  {| user_id := n; username := name; password := pw; role := r;
     department := dept; full_name := full |}.

Definition sample_users : list User :=
  [ mk_user 1 "john_manager" "password123" "manager" "Operations" "John Manager";
    mk_user 2 "sara_director" "password123" "manager" "Sales" "Sara Director";
    mk_user 3 "mike_hod" "password123" "hod" "IT" "Mike HOD";
    mk_user 4 "lisa_hod" "password123" "hod" "Finance" "Lisa HOD";
    mk_user 5 "tech_admin" "password123" "it_admin" "IT Inventory" "Tech Admin";
    mk_user 6 "inventory_mgr" "password123" "it_admin" "IT Inventory"
      "Inventory Manager";
    mk_user 7 "alice_sales" "password123" "user" "Sales" "Alice Sales";
    mk_user 8 "bob_marketing" "password123" "user" "Marketing" "Bob Marketing";
    mk_user 9 "charlie_ops" "password123" "user" "Operations" "Charlie Ops";
    mk_user 10 "diana_hr" "password123" "user" "HR" "Diana HR" ].

(** The tables with the sample users and no request yet. *)
Definition no_requests : Tables :=
  {| devices := []; users := sample_users; challans := [] |}.

(** One request, submitted by alice_sales at time 100. *)
Definition one_request : Tables :=
  snd (mcp_server.create_challan 100 "phone" "Samsung Galaxy S23" "SN1000000001"
         1 "Field sales team" "alice_sales" no_requests).

(** The same request after john_manager approved it at time 110. *)
Definition manager_approved : Tables :=
  snd (mcp_server.approve_challan 110 1 "manager" "john_manager" None
         one_request).

(** The same request after john_manager rejected it at time 110. *)
Definition manager_rejected : Tables :=
  snd (mcp_server.reject_challan 110 1 "manager" "john_manager"
         "Not aligned with department goals" one_request).

(** The row transformation [update_approval_status] applies to the rows
    selected by [WHERE id = ?]; the identity for a role that matches no
    branch. *)
Definition stage_setter (role status : string) (now : Timestamp)
    (remarks : option string) : Challan -> Challan :=
  if (role =? "manager")%string then db.set_manager status now remarks
  else if (role =? "hod")%string then db.set_hod status now remarks
  else if (role =? "it_admin")%string then db.set_it status now remarks
  else fun c => c.

(** ** Further predicates on the tables *)

(** The PRIMARY KEY of [challans]: ids are pairwise distinct. *)
Definition ids_unique (rows : list Challan) : Prop :=
  NoDup (map id rows).

(** A request on which neither the manager nor the hod stage has
    rejected, whose approvals came in the order of the stages, and whose
    stored final status is the derived one. *)
Definition final_status_tracked (c : Challan) : Prop :=
  final_status c = derived_final_status c /\
  (manager_status c = "pending" \/ manager_status c = "approved") /\
  (hod_status c = "pending" \/
   (hod_status c = "approved" /\ manager_status c = "approved")) /\
  (it_status c = "pending" \/ it_status c = "rejected" \/
   (it_status c = "approved" /\ manager_status c = "approved" /\
    hod_status c = "approved")).

(** What the grouping loop maintains after the devices [seen]: headings
    are pairwise distinct, each heading carries exactly the devices of its
    type, in the order seen and at least one, and every device seen has
    its type among the headings. *)
Definition grouped (seen : list db.CatalogEntry)
    (groups : list (string * list db.CatalogEntry)) : Prop :=
  NoDup (map fst groups) /\
  Forall (fun g =>
            snd g =
              filter (fun d => (db.ce_device_type d =? fst g)%string) seen /\
            snd g <> []) groups /\
  (forall d, In d seen -> In (db.ce_device_type d) (map fst groups)).

(** The turns of the loop of [populate_sample_data]: 1 to 20. *)
Definition sample_turns : list Z := map Z.of_nat (seq 1 20).

(** The sample rows of the draws [ds], numbered from [start]. *)
Fixpoint numbered_samples (start : Z) (ds : list db.SampleDraw)
    : list Challan :=
  match ds with
  | [] => []
  | d :: later => db.sample_row start d :: numbered_samples (start + 1) later
  end.

(** A draw function for the examples: turn [i] draws serial number
    1000000000 + i, one device for alice_sales, approved by the manager
    and pending at the hod stage. *)
Definition example_draw (i : Z) : db.SampleDraw :=
  {| db.draw_device := ("phone", "Samsung Galaxy A54", "Mid-range");
     db.draw_user :=
       ("alice_sales", "password123", "user", "Sales", "Alice Sales");
     db.draw_purpose := "Backup device";
     db.draw_serial := 1000000000 + i;
     db.draw_quantity := 1;
     db.draw_request_now := 5000000000000;
     db.draw_request_days := 30;
     db.draw_flow_now := 5000000000000;
     db.draw_manager := db.approved;
     db.draw_hod := db.pending;
     db.draw_it := db.pending;
     db.draw_manager_approved_days := 20;
     db.draw_hod_days := 5;
     db.draw_it_days := 3;
     db.draw_manager_rejected_days := 5 |}.

(** A draw function whose turns all draw the same serial number. *)
Definition colliding_draw (i : Z) : db.SampleDraw :=
  {| db.draw_device := db.draw_device (example_draw i);
     db.draw_user := db.draw_user (example_draw i);
     db.draw_purpose := db.draw_purpose (example_draw i);
     db.draw_serial := 1234567890;
     db.draw_quantity := db.draw_quantity (example_draw i);
     db.draw_request_now := db.draw_request_now (example_draw i);
     db.draw_request_days := db.draw_request_days (example_draw i);
     db.draw_flow_now := db.draw_flow_now (example_draw i);
     db.draw_manager := db.draw_manager (example_draw i);
     db.draw_hod := db.draw_hod (example_draw i);
     db.draw_it := db.draw_it (example_draw i);
     db.draw_manager_approved_days :=
       db.draw_manager_approved_days (example_draw i);
     db.draw_hod_days := db.draw_hod_days (example_draw i);
     db.draw_it_days := db.draw_it_days (example_draw i);
     db.draw_manager_rejected_days :=
       db.draw_manager_rejected_days (example_draw i) |}.

(** Request [c] is in the list of pending work [get_pending_approvals]
    returns for [role]. *)
Definition listed (role : string) (t : Tables) (c : Challan) : Prop :=
  exists rows,
    db.get_pending_approvals role t = (inr rows, t) /\ In c rows.

(** Case analysis on a comparison of strings, and unfolding of the store
    monad. *)
Ltac case_eqb :=
  match goal with
  | |- context [String.eqb ?a ?b] => destruct (String.eqb_spec a b)
  | H : context [String.eqb ?a ?b] |- _ => destruct (String.eqb_spec a b)
  end.

Ltac unfold_db :=
  unfold db.update_approval_status, db.execute_update, db.get_challan_status,
    db.get_user_by_username, db.create_challan, db.get_pending_approvals,
    bind_integer, commit_challans, get_tables, bind, ret, raise in *.

(** * Properties *)

(** ** Unfolding the store methods *)

Lemma with_challans_same (t : Tables) : with_challans (challans t) t = t.
Proof. destruct t; reflexivity. Qed.

Lemma update_where_id_identity (i : Z) (rows : list Challan) :
  db.update_where_id i (fun c => c) rows = rows.
Proof.
  unfold db.update_where_id.
  induction rows as [| c rows IH]; simpl; [reflexivity |].
  rewrite IH. destruct (id c =? i); reflexivity.
Qed.

Lemma stage_setter_id (role status : string) (now : Timestamp)
    (rm : option string) (c : Challan) :
  id (stage_setter role status now rm c) = id c.
Proof. unfold stage_setter. repeat case_eqb; reflexivity. Qed.

Lemma stage_setter_serial (role status : string) (now : Timestamp)
    (rm : option string) (c : Challan) :
  serial_number (stage_setter role status now rm c) = serial_number c.
Proof. unfold stage_setter. repeat case_eqb; reflexivity. Qed.

Lemma stage_setter_remarks (role status : string) (now : Timestamp)
    (rm : option string) (c : Challan) :
  is_stage role ->
  remarks (stage_setter role status now rm c) = db.coalesce rm (remarks c).
Proof.
  unfold stage_setter, is_stage. intros Hs.
  repeat case_eqb; try reflexivity. tauto.
Qed.

(** With an id SQLite can bind, the update goes through and rewrites the
    selected rows with [stage_setter]. *)
Lemma update_approval_status_fits (now : Timestamp) (i : Z)
    (role status : string) (rm : option string) (t : Tables) :
  fits_sqlite_integer i = true ->
  db.update_approval_status now i role status rm t =
  (inr tt,
   with_challans (db.update_where_id i (stage_setter role status now rm)
                    (challans t)) t).
Proof.
  intros Hfit. unfold stage_setter. unfold_db. rewrite Hfit.
  repeat case_eqb; try reflexivity.
  rewrite update_where_id_identity, with_challans_same. reflexivity.
Qed.

(** With an id SQLite cannot bind nothing is written. *)
Lemma update_approval_status_overflow (now : Timestamp) (i : Z)
    (role status : string) (rm : option string) (t : Tables) :
  fits_sqlite_integer i = false ->
  snd (db.update_approval_status now i role status rm t) = t.
Proof.
  intros Hfit. unfold_db. rewrite Hfit.
  repeat case_eqb; reflexivity.
Qed.

Lemma update_approval_status_fits_or_same (now : Timestamp) (i : Z)
    (role status : string) (rm : option string) (t : Tables) :
  snd (db.update_approval_status now i role status rm t) =
  if fits_sqlite_integer i then
    with_challans (db.update_where_id i (stage_setter role status now rm)
                     (challans t)) t
  else t.
Proof.
  destruct (fits_sqlite_integer i) eqn:Hfit.
  - rewrite update_approval_status_fits by assumption. reflexivity.
  - apply update_approval_status_overflow; assumption.
Qed.

Lemma get_challan_status_found (i : Z) (t t' : Tables) (c : Challan) :
  db.get_challan_status i t = (inr (Some c), t') ->
  fits_sqlite_integer i = true /\
  db.select_challan i (challans t) = Some c /\ t' = t.
Proof.
  unfold_db. destruct (fits_sqlite_integer i); intros H.
  - inversion H; subst. auto.
  - discriminate.
Qed.

Lemma get_challan_status_fits (i : Z) (t : Tables) :
  fits_sqlite_integer i = true ->
  db.get_challan_status i t = (inr (db.select_challan i (challans t)), t).
Proof. intros Hfit. unfold_db. rewrite Hfit. reflexivity. Qed.

Lemma select_after_update (i : Z) (f : Challan -> Challan)
    (rows : list Challan) :
  (forall c, id (f c) = id c) ->
  db.select_challan i (db.update_where_id i f rows) =
  option_map f (db.select_challan i rows).
Proof.
  intros Hid. unfold db.select_challan, db.update_where_id.
  induction rows as [| c rows IH]; simpl; [reflexivity |].
  destruct (id c =? i) eqn:E.
  - rewrite Hid, E. reflexivity.
  - rewrite E. exact IH.
Qed.

(** ** Unfolding the tools: each tool as one case analysis *)

Lemma approve_challan_cases (now : Timestamp) (i : Z)
    (role actor : string) (rm : option string) (t : Tables) :
  mcp_server.approve_challan now i role actor rm t =
  if fits_sqlite_integer i then
    match db.select_challan i (challans t) with
    | None => (mcp_server.ChallanNotFound i, t)
    | Some c =>
        match db.select_user actor (users t) with
        | None => (mcp_server.ApproverNotFound actor, t)
        | Some u =>
            if negb (user_role u =? role)%string then
              (mcp_server.RoleNotHeld actor role, t)
            else if (role =? "hod")%string
                    && negb (manager_status c =? "approved")%string then
              (mcp_server.HodBeforeManager, t)
            else if (role =? "it_admin")%string
                    && (negb (manager_status c =? "approved")%string
                        || negb (hod_status c =? "approved")%string) then
              (mcp_server.ItBeforeManagerAndHod, t)
            else
              (mcp_server.Approved i actor role rm,
               with_challans
                 (db.update_where_id i (stage_setter role "approved" now rm)
                    (challans t)) t)
        end
    end
  else (mcp_server.ErrorApproving overflow, t).
Proof.
  unfold mcp_server.approve_challan, mcp_server.tool,
    db.get_challan_status, db.get_user_by_username, bind_integer,
    get_tables, bind, ret, raise.
  destruct (fits_sqlite_integer i) eqn:Hfit; [| reflexivity].
  destruct (db.select_challan i (challans t)) as [c |]; [| reflexivity].
  destruct (db.select_user actor (users t)) as [u |]; [| reflexivity].
  destruct (negb (user_role u =? role)%string); [reflexivity |].
  destruct ((role =? "hod")%string && _); [reflexivity |].
  destruct ((role =? "it_admin")%string && _); [reflexivity |].
  rewrite update_approval_status_fits by assumption. reflexivity.
Qed.

Lemma reject_challan_cases (now : Timestamp) (i : Z)
    (role actor reason : string) (t : Tables) :
  mcp_server.reject_challan now i role actor reason t =
  if fits_sqlite_integer i then
    match db.select_challan i (challans t) with
    | None => (mcp_server.ChallanNotFound i, t)
    | Some c =>
        match db.select_user actor (users t) with
        | None => (mcp_server.RejecterNotFound actor, t)
        | Some u =>
            if negb (user_role u =? role)%string then
              (mcp_server.RoleNotHeld actor role, t)
            else
              (mcp_server.Rejected i actor role reason,
               with_challans
                 (db.update_where_id i
                    (stage_setter role "rejected" now (Some reason))
                    (challans t)) t)
        end
    end
  else (mcp_server.ErrorRejecting overflow, t).
Proof.
  unfold mcp_server.reject_challan, mcp_server.tool,
    db.get_challan_status, db.get_user_by_username, bind_integer,
    get_tables, bind, ret, raise.
  destruct (fits_sqlite_integer i) eqn:Hfit; [| reflexivity].
  destruct (db.select_challan i (challans t)) as [c |]; [| reflexivity].
  destruct (db.select_user actor (users t)) as [u |]; [| reflexivity].
  destruct (negb (user_role u =? role)%string); [reflexivity |].
  rewrite update_approval_status_fits by assumption. reflexivity.
Qed.

Lemma create_challan_cases (now : Timestamp) (dt dm sn : string) (q : Z)
    (p rb : string) (t : Tables) :
  mcp_server.create_challan now dt dm sn q p rb t =
  match db.select_user rb (users t) with
  | None => (mcp_server.UserNotFound rb, t)
  | Some _ =>
      if fits_sqlite_integer q then
        if db.serial_taken sn (challans t) then
          (mcp_server.ErrorCreating duplicate_serial, t)
        else
          (mcp_server.ChallanCreated (db.next_rowid (challans t)) dm rb,
           with_challans
             (challans t ++
              [db.new_row (db.next_rowid (challans t)) now
                 {| db.cd_device_type := dt; db.cd_device_model := dm;
                    db.cd_serial_number := sn; db.cd_quantity := q;
                    db.cd_purpose := p; db.cd_requested_by := rb |}]) t)
      else (mcp_server.ErrorCreating overflow, t)
  end.
Proof.
  unfold mcp_server.create_challan, mcp_server.tool,
    db.create_challan, db.get_user_by_username, bind_integer,
    commit_challans, get_tables, bind, ret, raise. simpl.
  destruct (db.select_user rb (users t)) as [u |]; [| reflexivity].
  destruct (fits_sqlite_integer q); [| reflexivity].
  destruct (db.serial_taken sn (challans t)); reflexivity.
Qed.

(** ** Frame of a stage update *)

Lemma touches_only_stage_refl (role : string) (c : Challan) :
  touches_only_stage role c c.
Proof. unfold touches_only_stage, same_description. tauto. Qed.

Lemma stage_setter_touches_only_stage (role status : string)
    (now : Timestamp) (rm : option string) (c : Challan) :
  touches_only_stage role c (stage_setter role status now rm c).
Proof.
  unfold stage_setter.
  repeat case_eqb; subst; unfold touches_only_stage, same_description;
    simpl; repeat split; intros; congruence.
Qed.

Lemma update_where_id_frame (i : Z) (role status : string) (now : Timestamp)
    (rm : option string) (rows : list Challan) :
  Forall2 (touches_only_stage role) rows
    (db.update_where_id i (stage_setter role status now rm) rows).
Proof.
  unfold db.update_where_id.
  induction rows as [| c rows IH]; simpl; constructor; auto.
  destruct (id c =? i).
  - apply stage_setter_touches_only_stage.
  - apply touches_only_stage_refl.
Qed.

Lemma frame_refl (role : string) (rows : list Challan) :
  Forall2 (touches_only_stage role) rows rows.
Proof.
  induction rows; constructor; auto using touches_only_stage_refl.
Qed.

(** C10: for a role argument other than manager, hod and it_admin the
    store's [update_approval_status] returns normally, without raising,
    and leaves the tables (hence every request record) exactly as they
    were. *)
Theorem update_approval_status_unknown_role_noop (now : Timestamp) (i : Z)
    (role status : string) (rm : option string) (t : Tables) :
  ~ is_stage role ->
  db.update_approval_status now i role status rm t = (inr tt, t).
Proof.
  unfold is_stage. intros Hrole.
  unfold db.update_approval_status.
  repeat case_eqb; tauto || reflexivity.
Qed.

Lemma update_approval_status_unknown_role_noop_witness :
  ~ is_stage "user" /\
  db.update_approval_status 120 1 "user" "approved" (Some "fine")
    manager_approved = (inr tt, manager_approved).
Proof.
  assert (Hrole : ~ is_stage "user")
    by (unfold is_stage; intros [H | [H | H]]; discriminate H).
  split; [exact Hrole |].
  exact (update_approval_status_unknown_role_noop 120 1 "user" "approved"
           (Some "fine") manager_approved Hrole).
Defined.

Lemma update_approval_status_frame (now : Timestamp) (i : Z)
    (role status : string) (rm : option string) (t : Tables) :
  Forall2 (touches_only_stage role) (challans t)
    (challans (snd (db.update_approval_status now i role status rm t))) /\
  users (snd (db.update_approval_status now i role status rm t)) = users t /\
  devices (snd (db.update_approval_status now i role status rm t)) = devices t.
Proof.
  rewrite update_approval_status_fits_or_same.
  destruct (fits_sqlite_integer i); simpl;
    auto using frame_refl, update_where_id_frame.
Qed.

(** C9: an approve or a reject call, like the stage update of the store it
    relies on, leaves in every request the id, device type, device model,
    serial number, quantity, purpose, requester and creation timestamp as
    they were, and also the status and date of the stages the call does
    not target; no request appears or disappears, and the users and
    devices are not written. *)
Theorem decide_preserves_description (now : Timestamp) (i : Z)
    (role actor reason : string) (rm : option string) (t : Tables) :
  let after_approve := snd (mcp_server.approve_challan now i role actor rm t) in
  let after_reject :=
    snd (mcp_server.reject_challan now i role actor reason t) in
  Forall2 (touches_only_stage role) (challans t) (challans after_approve) /\
  Forall2 (touches_only_stage role) (challans t) (challans after_reject) /\
  users after_approve = users t /\ devices after_approve = devices t /\
  users after_reject = users t /\ devices after_reject = devices t.
Proof.
  cbv zeta.
  destruct (update_approval_status_frame now i role "approved" rm t)
    as (Ha & Hau & Had).
  destruct (update_approval_status_frame now i role "rejected" (Some reason) t)
    as (Hr & Hru & Hrd).
  rewrite update_approval_status_fits_or_same in Ha, Hau, Had, Hr, Hru, Hrd.
  rewrite approve_challan_cases, reject_challan_cases.
  destruct (fits_sqlite_integer i); simpl in *;
    [| auto 10 using frame_refl].
  destruct (db.select_challan i (challans t)); simpl;
    [| auto 10 using frame_refl].
  destruct (db.select_user actor (users t)); simpl;
    [| auto 10 using frame_refl].
  destruct (negb (user_role u =? role)%string); simpl;
    [auto 10 using frame_refl |].
  destruct ((role =? "hod")%string && _); simpl;
    [auto 10 using frame_refl |].
  destruct ((role =? "it_admin")%string && _); simpl;
    auto 10 using frame_refl.
Qed.

(** C5: when the request exists and the acting user exists but holds a
    role other than the role argument, approve and reject both answer that
    the user does not have the required role, whatever the stage statuses
    of the request are, and the tables are unchanged. *)
Theorem role_mismatch_is_refused (now : Timestamp) (i : Z)
    (role actor reason : string) (rm : option string) (t : Tables)
    (c : Challan) (u : User) :
  db.get_challan_status i t = (inr (Some c), t) ->
  db.get_user_by_username actor t = (inr (Some u), t) ->
  user_role u <> role ->
  mcp_server.approve_challan now i role actor rm t =
    (mcp_server.RoleNotHeld actor role, t) /\
  mcp_server.reject_challan now i role actor reason t =
    (mcp_server.RoleNotHeld actor role, t).
Proof.
  intros Hget Husr Hrole.
  apply get_challan_status_found in Hget as (Hfit & Hsel & _).
  assert (Hu : db.select_user actor (users t) = Some u)
    by (unfold_db; congruence).
  rewrite approve_challan_cases, reject_challan_cases, Hfit, Hsel, Hu.
  apply String.eqb_neq in Hrole. rewrite Hrole. simpl. auto.
Qed.

Lemma role_mismatch_is_refused_witness :
  mcp_server.approve_challan 120 1 "hod" "john_manager" None manager_approved =
    (mcp_server.RoleNotHeld "john_manager" "hod", manager_approved) /\
  mcp_server.reject_challan 120 1 "hod" "john_manager" "no" manager_approved =
    (mcp_server.RoleNotHeld "john_manager" "hod", manager_approved).
Proof.
  refine (role_mismatch_is_refused 120 1 "hod" "john_manager" "no" None
            manager_approved _ _ _ _ _).
  - reflexivity.
  - reflexivity.
  - discriminate.
Defined.

(** ** Pending work per role *)

Lemma insert_desc_perm (c : Challan) (rows : list Challan) :
  Permutation (db.insert_desc c rows) (c :: rows).
Proof.
  induction rows as [| d rows IH]; simpl; [apply Permutation_refl |].
  destruct (request_date d <=? request_date c).
  - apply Permutation_refl.
  - eapply perm_trans; [apply perm_skip, IH | apply perm_swap].
Qed.

Lemma order_by_request_date_desc_perm (rows : list Challan) :
  Permutation (db.order_by_request_date_desc rows) rows.
Proof.
  unfold db.order_by_request_date_desc.
  induction rows as [| c rows IH]; simpl; [constructor |].
  eapply perm_trans; [apply insert_desc_perm | apply perm_skip, IH].
Qed.

Lemma insert_desc_newest_first (c : Challan) (rows : list Challan) :
  newest_first rows -> newest_first (db.insert_desc c rows).
Proof.
  unfold newest_first.
  induction rows as [| d rows IH]; simpl; intros Hs.
  - repeat constructor.
  - inversion Hs as [| ? ? Hrest Hd]; subst.
    destruct (request_date d <=? request_date c) eqn:E.
    + apply Z.leb_le in E. constructor; [exact Hs |].
      constructor; [exact E |].
      eapply Forall_impl; [| exact Hd]. simpl. intros x Hx. lia.
    + apply Z.leb_gt in E. constructor; [apply IH; exact Hrest |].
      eapply Permutation_Forall;
        [apply Permutation_sym, insert_desc_perm |].
      constructor; [lia | exact Hd].
Qed.

Lemma order_by_request_date_desc_newest_first (rows : list Challan) :
  newest_first (db.order_by_request_date_desc rows).
Proof.
  unfold db.order_by_request_date_desc.
  induction rows as [| c rows IH]; simpl.
  - constructor.
  - apply insert_desc_newest_first, IH.
Qed.

(** C7: for each of the roles manager, hod and it_admin,
    [get_pending_approvals] returns, without writing anything, the requests
    that satisfy the guard predicate of that role (each of them once, and
    no other request), the newest creation timestamp first. *)
Theorem pending_approvals_match_guard_newest_first (role : string)
    (t : Tables) :
  is_stage role ->
  exists rows,
    db.get_pending_approvals role t = (inr rows, t) /\
    Permutation rows (filter (guard role) (challans t)) /\
    newest_first rows.
Proof.
  intros [-> | [-> | ->]];
    eexists; (split; [reflexivity |]); split;
    solve [ apply order_by_request_date_desc_perm
          | apply order_by_request_date_desc_newest_first ].
Qed.

Lemma pending_approvals_match_guard_newest_first_witness :
  exists rows,
    db.get_pending_approvals "hod" manager_approved =
      (inr rows, manager_approved) /\
    Permutation rows (filter (guard "hod") (challans manager_approved)) /\
    newest_first rows.
Proof.
  apply (pending_approvals_match_guard_newest_first "hod" manager_approved).
  right; left; reflexivity.
Defined.

(** ** The shared remarks column *)

Lemma update_approval_status_found (now : Timestamp) (i : Z)
    (role status : string) (rm : option string) (t : Tables) (c : Challan) :
  db.get_challan_status i t = (inr (Some c), t) ->
  exists t',
    db.update_approval_status now i role status rm t = (inr tt, t') /\
    db.get_challan_status i t' =
      (inr (Some (stage_setter role status now rm c)), t').
Proof.
  intros Hget. apply get_challan_status_found in Hget as (Hfit & Hsel & _).
  eexists. split; [apply update_approval_status_fits; exact Hfit |].
  rewrite get_challan_status_fits by exact Hfit. simpl.
  rewrite select_after_update by (intros; apply stage_setter_id).
  rewrite Hsel. reflexivity.
Qed.

(** C8: after any sequence of stage decisions written to an existing
    request, the remarks column holds the last remarks of the sequence
    that is not null, and the remarks stored before the sequence when
    every decision of the sequence carried null remarks. *)
Theorem remarks_hold_last_non_null_write (i : Z) (ds : list Decision)
    (t : Tables) (c : Challan) :
  Forall (fun d => is_stage (d_role d)) ds ->
  db.get_challan_status i t = (inr (Some c), t) ->
  exists t' c',
    apply_decisions i ds t = (inr tt, t') /\
    db.get_challan_status i t' = (inr (Some c'), t') /\
    remarks c' =
      match last_non_null (map d_remarks ds) with
      | Some r => Some r
      | None => remarks c
      end.
Proof.
  intros Hroles. revert t c.
  induction Hroles as [| d later Hd _ IH]; intros t c Hget.
  - exists t, c. simpl. auto.
  - destruct (update_approval_status_found (d_time d) i (d_role d)
                (d_status d) (d_remarks d) t c Hget) as (t1 & Hupd & Hget1).
    destruct (IH t1 _ Hget1) as (t' & c' & Hrun & Hget' & Hrem).
    exists t', c'. split; [| split; [exact Hget' |]].
    + simpl. unfold bind. rewrite Hupd. exact Hrun.
    + rewrite Hrem, stage_setter_remarks by exact Hd. simpl.
      destruct (last_non_null (map d_remarks later)); [reflexivity |].
      destruct (d_remarks d); reflexivity.
Qed.

Lemma remarks_hold_last_non_null_write_witness :
  exists t' c',
    apply_decisions 1
      [ {| d_time := 110; d_role := "manager"; d_status := "approved";
           d_remarks := Some "urgent" |};
        {| d_time := 120; d_role := "hod"; d_status := "approved";
           d_remarks := None |} ] one_request = (inr tt, t') /\
    db.get_challan_status 1 t' = (inr (Some c'), t') /\
    remarks c' = Some "urgent".
Proof.
  refine (remarks_hold_last_non_null_write 1 _ one_request _ _ _).
  - repeat constructor; unfold is_stage; simpl; tauto.
  - reflexivity.
Defined.

(** ** Serial numbers *)

Lemma serial_taken_In (sn : string) (rows : list Challan) :
  db.serial_taken sn rows = true <-> In sn (map serial_number rows).
Proof.
  unfold db.serial_taken. rewrite existsb_exists, in_map_iff.
  split; intros (c & H1 & H2).
  - exists c. apply String.eqb_eq in H2. auto.
  - exists c. split; [exact H2 | apply String.eqb_eq; exact H1].
Qed.

Lemma count_serial_free (sn : string) (rows : list Challan) :
  db.serial_taken sn rows = false -> count_serial sn rows = 0%nat.
Proof.
  unfold db.serial_taken, count_serial.
  induction rows as [| c rows IH]; simpl; [reflexivity |].
  destruct (serial_number c =? sn)%string; simpl; [discriminate | exact IH].
Qed.

Lemma count_serial_unique (sn : string) (rows : list Challan) :
  serials_unique rows -> db.serial_taken sn rows = true ->
  count_serial sn rows = 1%nat.
Proof.
  unfold serials_unique.
  induction rows as [| c rows IH]; simpl; intros Hnd Htaken;
    [discriminate |].
  inversion Hnd as [| ? ? Hnotin Hnd']; subst.
  unfold count_serial. simpl.
  destruct (String.eqb_spec (serial_number c) sn) as [Heq | Hne]; simpl.
  - subst sn. f_equal. apply count_serial_free.
    destruct (db.serial_taken (serial_number c) rows) eqn:E; [| reflexivity].
    apply serial_taken_In in E. contradiction.
  - apply IH; [exact Hnd' |].
    apply String.eqb_neq in Hne.
    unfold db.serial_taken in *. simpl in Htaken.
    rewrite ?Hne in Htaken. exact Htaken.
Qed.

Lemma serials_unique_insert (rows : list Challan) (c : Challan) :
  serials_unique rows ->
  db.serial_taken (serial_number c) rows = false ->
  serials_unique (rows ++ [c]).
Proof.
  unfold serials_unique. intros Hnd Hfree.
  rewrite map_app. simpl.
  apply NoDup_app; [exact Hnd | repeat constructor; simpl; tauto |].
  intros sn Hin [<- | []].
  apply serial_taken_In in Hin. congruence.
Qed.

Lemma update_where_id_serials (i : Z) (role status : string)
    (now : Timestamp) (rm : option string) (rows : list Challan) :
  map serial_number (db.update_where_id i (stage_setter role status now rm) rows)
  = map serial_number rows.
Proof.
  unfold db.update_where_id. rewrite map_map. apply map_ext.
  intros c. destruct (id c =? i); [apply stage_setter_serial | reflexivity].
Qed.

(** Distinct serial numbers are an invariant of the three tools that
    write. *)
Lemma serials_unique_create (now : Timestamp) (dt dm sn : string) (q : Z)
    (p rb : string) (t : Tables) :
  serials_unique (challans t) ->
  serials_unique
    (challans (snd (mcp_server.create_challan now dt dm sn q p rb t))).
Proof.
  intros Hu. rewrite create_challan_cases.
  destruct (db.select_user rb (users t)); [| exact Hu].
  destruct (fits_sqlite_integer q); [| exact Hu].
  destruct (db.serial_taken sn (challans t)) eqn:E; [exact Hu |].
  simpl. apply serials_unique_insert; assumption.
Qed.

Lemma serials_unique_approve (now : Timestamp) (i : Z) (role actor : string)
    (rm : option string) (t : Tables) :
  serials_unique (challans t) ->
  serials_unique
    (challans (snd (mcp_server.approve_challan now i role actor rm t))).
Proof.
  intros Hu. rewrite approve_challan_cases.
  repeat match goal with
         | |- context [if ?b then _ else _] => destruct b
         | |- context [match ?o with Some _ => _ | None => _ end] => destruct o
         end; try exact Hu.
  unfold serials_unique. simpl. rewrite update_where_id_serials. exact Hu.
Qed.

Lemma serials_unique_reject (now : Timestamp) (i : Z)
    (role actor reason : string) (t : Tables) :
  serials_unique (challans t) ->
  serials_unique
    (challans (snd (mcp_server.reject_challan now i role actor reason t))).
Proof.
  intros Hu. rewrite reject_challan_cases.
  repeat match goal with
         | |- context [if ?b then _ else _] => destruct b
         | |- context [match ?o with Some _ => _ | None => _ end] => destruct o
         end; try exact Hu.
  unfold serials_unique. simpl. rewrite update_where_id_serials. exact Hu.
Qed.

(** C6: of two create calls with the same serial number, made one after
    the other by requesters that exist and with quantities SQLite can
    store, the second is refused with the UNIQUE-constraint error of
    [serial_number] and writes nothing; afterwards exactly one request
    carries that serial number, and serial numbers are still pairwise
    distinct. *)
Theorem second_create_with_same_serial_is_refused
    (now1 now2 : Timestamp) (sn : string)
    (dt1 dm1 p1 rb1 dt2 dm2 p2 rb2 : string) (q1 q2 : Z) (t : Tables) :
  serials_unique (challans t) ->
  db.select_user rb1 (users t) <> None -> fits_sqlite_integer q1 = true ->
  db.select_user rb2 (users t) <> None -> fits_sqlite_integer q2 = true ->
  let first := mcp_server.create_challan now1 dt1 dm1 sn q1 p1 rb1 t in
  let second :=
    mcp_server.create_challan now2 dt2 dm2 sn q2 p2 rb2 (snd first) in
  fst second = mcp_server.ErrorCreating duplicate_serial /\
  snd second = snd first /\
  count_serial sn (challans (snd second)) = 1%nat /\
  serials_unique (challans (snd second)).
Proof.
  intros Hu Hrb1 Hq1 Hrb2 Hq2. cbv zeta.
  assert (Hu1 := serials_unique_create now1 dt1 dm1 sn q1 p1 rb1 t Hu).
  assert (Htaken :
    db.serial_taken sn
      (challans (snd (mcp_server.create_challan now1 dt1 dm1 sn q1 p1 rb1 t)))
    = true /\
    users (snd (mcp_server.create_challan now1 dt1 dm1 sn q1 p1 rb1 t))
    = users t).
  { rewrite create_challan_cases.
    destruct (db.select_user rb1 (users t)); [| congruence].
    rewrite Hq1.
    destruct (db.serial_taken sn (challans t)) eqn:E; simpl; [auto |].
    split; [| reflexivity].
    unfold db.serial_taken. rewrite existsb_app. simpl.
    rewrite String.eqb_refl. apply orb_true_iff. right. reflexivity. }
  destruct Htaken as [Htaken Husers].
  set (t1 := snd (mcp_server.create_challan now1 dt1 dm1 sn q1 p1 rb1 t)) in *.
  rewrite create_challan_cases, Husers.
  destruct (db.select_user rb2 (users t)); [| congruence].
  rewrite Hq2, Htaken. simpl.
  repeat split; [| exact Hu1].
  apply count_serial_unique; assumption.
Qed.

Lemma second_create_with_same_serial_is_refused_witness :
  let first :=
    mcp_server.create_challan 130 "tablet" "Samsung Galaxy Tab S9"
      "SN2000000002" 2 "Training session" "bob_marketing" one_request in
  let second :=
    mcp_server.create_challan 140 "phone" "Samsung Galaxy A54"
      "SN2000000002" 1 "Backup device" "diana_hr" (snd first) in
  fst second = mcp_server.ErrorCreating duplicate_serial /\
  snd second = snd first /\
  count_serial "SN2000000002" (challans (snd second)) = 1%nat /\
  serials_unique (challans (snd second)).
Proof.
  apply (second_create_with_same_serial_is_refused 130 140 "SN2000000002"
           "tablet" "Samsung Galaxy Tab S9" "Training session" "bob_marketing"
           "phone" "Samsung Galaxy A54" "Backup device" "diana_hr" 2 1
           one_request).
  - repeat constructor; simpl; tauto.
  - discriminate.
  - reflexivity.
  - discriminate.
  - reflexivity.
Defined.

(** ** Validation at creation *)

(** alice_sales asks for zero devices with an empty serial number: the
    request is stored as number 1. *)
Example create_with_zero_quantity_and_empty_serial :
  mcp_server.create_challan 100 "phone" "Samsung Galaxy S23" "" 0
    "Backup device" "alice_sales" no_requests =
  (mcp_server.ChallanCreated 1 "Samsung Galaxy S23" "alice_sales",
   with_challans
     [db.new_row 1 100
        {| db.cd_device_type := "phone";
           db.cd_device_model := "Samsung Galaxy S23";
           db.cd_serial_number := ""; db.cd_quantity := 0;
           db.cd_purpose := "Backup device";
           db.cd_requested_by := "alice_sales" |}] no_requests).
Proof. reflexivity. Qed.

(** C4, as stated, fails: a create call with quantity 0 (and an empty
    serial number) by an existing user succeeds and inserts the request. *)
Lemma create_accepts_zero_quantity : ~ create_validates_input.
Proof.
  intros Hclaim.
  destruct (Hclaim 100 "phone" "Samsung Galaxy S23" "" 0 "Backup device"
              "alice_sales" no_requests) as [Hq _].
  destruct Hq as [Hfail _]; [lia | discriminate Hfail].
Qed.

(** C4, amended: a create call whose requester does not exist answers that
    the user was not found and inserts nothing; the quantity and the serial
    number are not validated: when the requester exists, the quantity is
    one SQLite can store and the serial number is not stored yet, the call
    succeeds and appends the request with exactly that quantity and serial
    number, whatever their values. *)
Theorem create_checks_requester_only (now : Timestamp) (dt dm sn : string)
    (q : Z) (p rb : string) (t : Tables) :
  let result := mcp_server.create_challan now dt dm sn q p rb t in
  (db.select_user rb (users t) = None ->
   result = (mcp_server.UserNotFound rb, t)) /\
  (db.select_user rb (users t) <> None ->
   fits_sqlite_integer q = true ->
   db.serial_taken sn (challans t) = false ->
   exists c,
     fst result = mcp_server.ChallanCreated (id c) dm rb /\
     challans (snd result) = (challans t ++ [c])%list /\
     quantity c = q /\ serial_number c = sn /\
     device_type c = dt /\ device_model c = dm /\ purpose c = p /\
     requested_by c = rb /\ request_date c = now /\
     manager_status c = "pending" /\ hod_status c = "pending" /\
     it_status c = "pending" /\ final_status c = "pending").
Proof.
  cbv zeta. rewrite create_challan_cases. split.
  - intros ->. reflexivity.
  - intros Hrb Hq Hsn.
    destruct (db.select_user rb (users t)); [| congruence].
    rewrite Hq, Hsn.
    exists (db.new_row (db.next_rowid (challans t)) now
              {| db.cd_device_type := dt; db.cd_device_model := dm;
                 db.cd_serial_number := sn; db.cd_quantity := q;
                 db.cd_purpose := p; db.cd_requested_by := rb |}).
    simpl. auto 15.
Qed.

Lemma create_checks_requester_only_witness :
  mcp_server.create_challan 100 "phone" "Samsung Galaxy S23" "" (-3)
    "Backup device" "nobody" no_requests =
    (mcp_server.UserNotFound "nobody", no_requests) /\
  exists c,
    fst (mcp_server.create_challan 100 "phone" "Samsung Galaxy S23" "" (-3)
           "Backup device" "alice_sales" no_requests) =
      mcp_server.ChallanCreated (id c) "Samsung Galaxy S23" "alice_sales" /\
    quantity c = -3 /\ serial_number c = "".
Proof.
  split.
  - apply (create_checks_requester_only 100 "phone" "Samsung Galaxy S23" ""
             (-3) "Backup device" "nobody" no_requests).
    reflexivity.
  - destruct (create_checks_requester_only 100 "phone" "Samsung Galaxy S23" ""
                (-3) "Backup device" "alice_sales" no_requests) as [_ Hins].
    destruct Hins as (c & Hreply & _ & Hq & Hsn & _);
      [discriminate | reflexivity | reflexivity |].
    exists c. auto.
Defined.

(** ** The order of the stages *)

(** john_manager approves a request the manager stage has already
    approved: the call is accepted and the approval date is written
    again. *)
Example manager_approves_twice :
  guard "manager"
    {| id := 1; device_type := "phone"; device_model := "Samsung Galaxy S23";
       serial_number := "SN1000000001"; quantity := 1;
       purpose := "Field sales team"; requested_by := "alice_sales";
       request_date := 100; manager_status := "approved";
       manager_approval_date := Some 110; hod_status := "pending";
       hod_approval_date := None; it_status := "pending";
       it_approval_date := None; final_status := "pending";
       remarks := None |} = false /\
  mcp_server.approve_challan 120 1 "manager" "john_manager" None
    manager_approved =
  (mcp_server.Approved 1 "john_manager" "manager" None,
   with_challans
     [ {| id := 1; device_type := "phone";
          device_model := "Samsung Galaxy S23";
          serial_number := "SN1000000001"; quantity := 1;
          purpose := "Field sales team"; requested_by := "alice_sales";
          request_date := 100; manager_status := "approved";
          manager_approval_date := Some 120; hod_status := "pending";
          hod_approval_date := None; it_status := "pending";
          it_approval_date := None; final_status := "pending";
          remarks := None |} ] manager_approved).
Proof. split; reflexivity. Qed.

(** C2, as stated, fails: approving at the manager stage a request whose
    manager status is already approved violates the guard of the stage and
    is accepted all the same. *)
Lemma decided_stage_can_be_approved_again : ~ decide_follows_guard_table.
Proof.
  intros Hclaim.
  destruct (Hclaim 120 1 "manager" "john_manager" "no" None manager_approved
              _ _ (or_introl eq_refl) eq_refl eq_refl eq_refl)
    as [_ Hrefused].
  destruct Hrefused as ([Hv | Hv] & _); [reflexivity | |]; discriminate Hv.
Qed.

(** C2, amended: an approve call on an existing request, by an existing
    user who holds the role of the targeted stage, is accepted exactly
    when every earlier stage is approved (no condition for manager;
    manager approved for hod; manager and hod approved for it_admin); the
    status of the targeted stage itself is not examined.  When accepted
    the stage of the stored request becomes approved, dated now, with the
    remarks coalesced; otherwise the call fails with a sequence violation
    and the tables are unchanged. *)
Theorem approve_follows_stage_order (now : Timestamp) (i : Z)
    (role actor : string) (rm : option string) (t : Tables)
    (c : Challan) (u : User) :
  is_stage role ->
  db.get_challan_status i t = (inr (Some c), t) ->
  db.get_user_by_username actor t = (inr (Some u), t) ->
  user_role u = role ->
  let result := mcp_server.approve_challan now i role actor rm t in
  (earlier_stages_approved role c = true ->
   fst result = mcp_server.Approved i actor role rm /\
   db.get_challan_status i (snd result) =
     (inr (Some (stage_setter role "approved" now rm c)), snd result) /\
   stage_status role (stage_setter role "approved" now rm c) = "approved") /\
  (earlier_stages_approved role c = false ->
   sequence_violation (fst result) /\ snd result = t).
Proof.
  intros Hstage Hget Husr Hrole. cbv zeta.
  apply get_challan_status_found in Hget as (Hfit & Hsel & _).
  assert (Hu : db.select_user actor (users t) = Some u)
    by (unfold_db; congruence).
  rewrite approve_challan_cases, Hfit, Hsel, Hu.
  apply String.eqb_eq in Hrole. rewrite Hrole. simpl negb. cbv iota.
  unfold earlier_stages_approved, sequence_violation.
  destruct Hstage as [-> | [-> | ->]]; simpl.
  - split; [| discriminate]. intros _.
    split; [reflexivity |]. split; [| reflexivity].
    rewrite get_challan_status_fits by exact Hfit. simpl.
    rewrite select_after_update by (intros; apply stage_setter_id).
    rewrite Hsel. reflexivity.
  - destruct (manager_status c =? "approved")%string; simpl.
    + split; [| discriminate]. intros _.
      split; [reflexivity |]. split; [| reflexivity].
      rewrite get_challan_status_fits by exact Hfit. simpl.
      rewrite select_after_update by (intros; apply stage_setter_id).
      rewrite Hsel. reflexivity.
    + split; [discriminate | auto].
  - destruct (manager_status c =? "approved")%string; simpl;
      [destruct (hod_status c =? "approved")%string; simpl |].
    + split; [| discriminate]. intros _.
      split; [reflexivity |]. split; [| reflexivity].
      rewrite get_challan_status_fits by exact Hfit. simpl.
      rewrite select_after_update by (intros; apply stage_setter_id).
      rewrite Hsel. reflexivity.
    + split; [discriminate | auto].
    + split; [discriminate | auto].
Qed.

Lemma approve_follows_stage_order_witness :
  fst (mcp_server.approve_challan 120 1 "hod" "mike_hod" (Some "ok")
         manager_approved) =
    mcp_server.Approved 1 "mike_hod" "hod" (Some "ok") /\
  sequence_violation
    (fst (mcp_server.approve_challan 120 1 "hod" "mike_hod" (Some "ok")
            one_request)) /\
  snd (mcp_server.approve_challan 120 1 "hod" "mike_hod" (Some "ok")
         one_request) = one_request.
Proof.
  split.
  - destruct (approve_follows_stage_order 120 1 "hod" "mike_hod" (Some "ok")
                manager_approved _ _ (or_intror (or_introl eq_refl))
                eq_refl eq_refl eq_refl) as [Hacc _].
    destruct Hacc as (Hreply & _); [reflexivity | exact Hreply].
  - destruct (approve_follows_stage_order 120 1 "hod" "mike_hod" (Some "ok")
                one_request _ _ (or_intror (or_introl eq_refl))
                eq_refl eq_refl eq_refl) as [_ Hrej].
    apply Hrej. reflexivity.
Defined.

(** ** The stored final status *)

(** The generator of the sample rows stores the derived final status,
    whatever the three draws are. *)
Lemma generate_status_flow_final_status (m h i : db.StatusOption) :
  let flow := db.generate_status_flow m h i in
  db.sf_final_status flow =
  derive_final_status (db.sf_manager_status flow) (db.sf_hod_status flow)
    (db.sf_it_status flow).
Proof. destruct m, h, i; reflexivity. Qed.

(** A decision of the IT stage on a request the two earlier stages have
    approved stores the derived final status. *)
Lemma it_decision_records_final_status (status : string) (now : Timestamp)
    (rm : option string) (c : Challan) :
  manager_status c = "approved" -> hod_status c = "approved" ->
  status = "approved" \/ status = "rejected" ->
  final_status (db.set_it status now rm c) =
  derived_final_status (db.set_it status now rm c).
Proof.
  unfold derived_final_status, derive_final_status. simpl.
  intros -> -> [-> | ->]; reflexivity.
Qed.

(** A rejection written for the manager or the hod stage leaves the stored
    final status as it was, while the derived one becomes rejected. *)
Lemma early_rejection_not_recorded (role : string) (now : Timestamp)
    (rm : option string) (c : Challan) :
  role = "manager" \/ role = "hod" ->
  final_status (stage_setter role "rejected" now rm c) = final_status c /\
  derived_final_status (stage_setter role "rejected" now rm c) = "rejected".
Proof.
  unfold derived_final_status, derive_final_status.
  intros [-> | ->]; simpl; [auto |].
  split; [reflexivity |].
  rewrite orb_true_r. simpl.
  destruct (manager_status c =? "approved")%string; reflexivity.
Qed.

(** C1, on the code: john_manager rejects request 1, on which nothing was
    decided yet.  The call is accepted; the stored request then has
    manager status rejected and final status pending, while the derivation
    from its three stage statuses gives rejected. *)
Theorem manager_rejection_leaves_final_status_pending :
  exists c,
    mcp_server.reject_challan 110 1 "manager" "john_manager"
      "Not aligned with department goals" one_request =
    (mcp_server.Rejected 1 "john_manager" "manager"
       "Not aligned with department goals", manager_rejected) /\
    db.get_challan_status 1 manager_rejected =
      (inr (Some c), manager_rejected) /\
    manager_status c = "rejected" /\
    final_status c = "pending" /\
    derived_final_status c = "rejected".
Proof. eexists. repeat split. Qed.

(** ** Decisions after a rejection *)

(** An approve call aimed at a stage that follows a rejected stage fails
    with a sequence violation and writes nothing. *)
Lemma approve_after_rejection_is_refused (now : Timestamp) (i : Z)
    (role actor : string) (rm : option string) (t : Tables)
    (c : Challan) (u : User) :
  db.get_challan_status i t = (inr (Some c), t) ->
  db.get_user_by_username actor t = (inr (Some u), t) ->
  user_role u = role ->
  (role = "hod" /\ manager_status c = "rejected") \/
  (role = "it_admin" /\
   (manager_status c = "rejected" \/ hod_status c = "rejected")) ->
  sequence_violation (fst (mcp_server.approve_challan now i role actor rm t)) /\
  snd (mcp_server.approve_challan now i role actor rm t) = t.
Proof.
  intros Hget Husr Hrole Hrej.
  apply get_challan_status_found in Hget as (Hfit & Hsel & _).
  assert (Hu : db.select_user actor (users t) = Some u)
    by (unfold_db; congruence).
  rewrite approve_challan_cases, Hfit, Hsel, Hu.
  apply String.eqb_eq in Hrole. rewrite Hrole. simpl negb. cbv iota.
  unfold sequence_violation.
  destruct Hrej as [[-> Hm] | [-> [Hm | Hh]]].
  - rewrite Hm. simpl. auto.
  - rewrite Hm. simpl. auto.
  - rewrite Hh. simpl. rewrite orb_true_r. simpl. auto.
Qed.

(** C3, on the code: request 1 was rejected at the manager stage; mike_hod
    then rejects it at the hod stage.  The call is accepted, not refused,
    and it writes the hod status, the hod date and the remarks of the
    request. *)
Theorem reject_after_rejection_is_accepted :
  exists c c',
    db.get_challan_status 1 manager_rejected =
      (inr (Some c), manager_rejected) /\
    manager_status c = "rejected" /\ hod_status c = "pending" /\
    fst (mcp_server.reject_challan 120 1 "hod" "mike_hod"
           "Budget constraints - request denied" manager_rejected) =
      mcp_server.Rejected 1 "mike_hod" "hod"
        "Budget constraints - request denied" /\
    db.select_challan 1
      (challans
         (snd (mcp_server.reject_challan 120 1 "hod" "mike_hod"
                 "Budget constraints - request denied" manager_rejected))) =
      Some c' /\
    hod_status c' = "rejected" /\ hod_approval_date c' = Some 120 /\
    remarks c' = Some "Budget constraints - request denied" /\
    remarks c = Some "Not aligned with department goals".
Proof. do 2 eexists. repeat split. Qed.

(** ** A complete run *)

(** Request 1 approved by the manager, the hod and the IT stage in turn:
    every call is accepted, the stored final status ends approved, equal
    to the derived one, and no role has the request pending any more. *)
Example full_approval_run :
  let t1 := manager_approved in
  let r2 := mcp_server.approve_challan 120 1 "hod" "mike_hod" None t1 in
  let r3 :=
    mcp_server.approve_challan 130 1 "it_admin" "tech_admin"
      (Some "Device ready for allocation") (snd r2) in
  fst r2 = mcp_server.Approved 1 "mike_hod" "hod" None /\
  fst r3 = mcp_server.Approved 1 "tech_admin" "it_admin"
             (Some "Device ready for allocation") /\
  option_map final_status (db.select_challan 1 (challans (snd r3))) =
    Some "approved" /\
  option_map derived_final_status (db.select_challan 1 (challans (snd r3))) =
    Some "approved" /\
  fst (db.get_pending_approvals "manager" (snd r3)) = inr [] /\
  fst (db.get_pending_approvals "hod" (snd r3)) = inr [] /\
  fst (db.get_pending_approvals "it_admin" (snd r3)) = inr [].
Proof. repeat split. Qed.

(** * Further properties of the store *)

(** ** Listing requests *)

(** X1: [get_all_challans] writes nothing and lists newest first: with a user
    name that is neither [None] nor empty, exactly the requests of that
    requester; with [None] or the empty string, every request. *)
Theorem get_all_challans_lists_newest_first (name : option string)
    (t : Tables) :
  exists rows,
    db.get_all_challans name t = (inr rows, t) /\
    newest_first rows /\
    Permutation rows
      match name with
      | None => challans t
      | Some n =>
          if (n =? "")%string then challans t
          else filter (fun c => (requested_by c =? n)%string) (challans t)
      end.
Proof.
  destruct name as [[| a n] |]; eexists; (split; [reflexivity |]);
    split; solve [ apply order_by_request_date_desc_newest_first
                 | apply order_by_request_date_desc_perm ].
Qed.

Lemma in_ordered_filter (f : Challan -> bool) (rows : list Challan)
    (c : Challan) :
  In c (db.order_by_request_date_desc (filter f rows)) <->
  In c rows /\ f c = true.
Proof.
  rewrite <- filter_In. split; apply Permutation_in.
  - apply order_by_request_date_desc_perm.
  - apply Permutation_sym, order_by_request_date_desc_perm.
Qed.

Lemma get_pending_approvals_rows (role : string) (t : Tables) :
  exists rows,
    db.get_pending_approvals role t = (inr rows, t) /\
    forall c, In c rows <-> In c (challans t) /\ guard role c = true.
Proof.
  unfold db.get_pending_approvals, guard, bind, get_tables, ret.
  destruct (role =? "manager")%string;
    [| destruct (role =? "hod")%string;
       [| destruct (role =? "it_admin")%string]];
    eexists; (split; [reflexivity |]); intros c;
    try apply in_ordered_filter.
  simpl. split; [tauto | intros [_ H]; discriminate H].
Qed.

Lemma guard_determines_role (role1 role2 : string) (c : Challan) :
  guard role1 c = true -> guard role2 c = true -> role1 = role2.
Proof.
  unfold guard. intros H1 H2.
  destruct (String.eqb_spec role1 "manager") as [-> | _];
    [| destruct (String.eqb_spec role1 "hod") as [-> | _];
       [| destruct (String.eqb_spec role1 "it_admin") as [-> | _];
          [| discriminate H1]]];
    (destruct (String.eqb_spec role2 "manager") as [-> | _];
     [| destruct (String.eqb_spec role2 "hod") as [-> | _];
        [| destruct (String.eqb_spec role2 "it_admin") as [-> | _];
           [| discriminate H2]]]);
    try reflexivity; exfalso;
    repeat match goal with
           | H : (_ && _)%bool = true |- _ => apply andb_prop in H; destruct H
           | H : (_ =? _)%string = true |- _ => apply String.eqb_eq in H
           end; congruence.
Qed.

(** X2: The lists of pending work of two different roles never share a
    request: a request listed by [get_pending_approvals] for one role is
    listed for no other role. *)
Theorem pending_lists_are_disjoint (role1 role2 : string) (t : Tables)
    (rows1 rows2 : list Challan) (c : Challan) :
  role1 <> role2 ->
  db.get_pending_approvals role1 t = (inr rows1, t) ->
  db.get_pending_approvals role2 t = (inr rows2, t) ->
  In c rows1 -> ~ In c rows2.
Proof.
  intros Hne H1 H2 Hin1 Hin2. apply Hne.
  destruct (get_pending_approvals_rows role1 t) as (r1 & E1 & Hr1).
  destruct (get_pending_approvals_rows role2 t) as (r2 & E2 & Hr2).
  rewrite H1 in E1. rewrite H2 in E2.
  inversion E1; inversion E2; subst r1 r2.
  apply Hr1 in Hin1. apply Hr2 in Hin2.
  eapply guard_determines_role; [apply Hin1 | apply Hin2].
Qed.

Lemma pending_lists_are_disjoint_witness :
  exists c rows1 rows2,
    db.get_pending_approvals "hod" manager_approved =
      (inr rows1, manager_approved) /\
    db.get_pending_approvals "manager" manager_approved =
      (inr rows2, manager_approved) /\
    In c rows1 /\ ~ In c rows2.
Proof.
  do 3 eexists.
  split; [reflexivity |]. split; [reflexivity |].
  split; [left; reflexivity |].
  eapply (pending_lists_are_disjoint "hod" "manager" manager_approved).
  - discriminate.
  - reflexivity.
  - reflexivity.
  - left; reflexivity.
Defined.

(** ** Creating and reading back *)

Lemma ids_below_next_rowid (rows : list Challan) (c : Challan) :
  In c rows -> id c < db.next_rowid rows.
Proof.
  unfold db.next_rowid.
  induction rows as [| d rows IH]; [simpl; tauto |].
  cbn [fold_right In].
  set (m := fold_right (fun c m => Z.max (id c) m) 0 rows) in *.
  intros [-> | Hin].
  - pose proof (Z.le_max_l (id c) m). lia.
  - specialize (IH Hin). pose proof (Z.le_max_r (id d) m). lia.
Qed.

Lemma select_challan_In (i : Z) (rows : list Challan) (c : Challan) :
  db.select_challan i rows = Some c -> In c rows /\ id c = i.
Proof.
  unfold db.select_challan. intros H.
  apply find_some in H as [Hin Hid]. apply Z.eqb_eq in Hid. auto.
Qed.

Lemma select_challan_absent (i : Z) (rows : list Challan) :
  (forall c, In c rows -> id c <> i) -> db.select_challan i rows = None.
Proof.
  intros H. destruct (db.select_challan i rows) as [c |] eqn:E;
    [| reflexivity].
  apply select_challan_In in E as [Hin Hid]. exfalso. exact (H c Hin Hid).
Qed.

Lemma select_challan_app (i : Z) (rows rows' : list Challan) :
  db.select_challan i (rows ++ rows') =
  match db.select_challan i rows with
  | Some c => Some c
  | None => db.select_challan i rows'
  end.
Proof.
  unfold db.select_challan.
  induction rows as [| d rows IH]; simpl; [reflexivity |].
  destruct (id d =? i); [reflexivity | exact IH].
Qed.

Lemma db_create_challan_cases (now : Timestamp) (d : db.ChallanData)
    (t : Tables) :
  db.create_challan now d t =
  if fits_sqlite_integer (db.cd_quantity d) then
    if db.serial_taken (db.cd_serial_number d) (challans t) then
      (inl duplicate_serial, t)
    else
      (inr (db.next_rowid (challans t)),
       with_challans
         (challans t ++ [db.new_row (db.next_rowid (challans t)) now d]) t)
  else (inl overflow, t).
Proof.
  unfold_db. destruct (fits_sqlite_integer (db.cd_quantity d));
    [| reflexivity].
  destruct (db.serial_taken (db.cd_serial_number d) (challans t));
    reflexivity.
Qed.

(** X3: A request that [create_challan] has stored can be read back under the
    id it returned, provided that id is one SQLite can bind: the row read
    has the submitted description, the creation time, all three stages and
    the final status pending, and neither dates nor remarks. *)
Theorem created_challan_is_read_back (now : Timestamp) (d : db.ChallanData)
    (t t' : Tables) (i : Z) :
  db.create_challan now d t = (inr i, t') ->
  fits_sqlite_integer i = true ->
  db.get_challan_status i t' = (inr (Some (db.new_row i now d)), t').
Proof.
  rewrite db_create_challan_cases. intros Hcreate Hfit.
  destruct (fits_sqlite_integer (db.cd_quantity d)); [| discriminate].
  destruct (db.serial_taken (db.cd_serial_number d) (challans t));
    [discriminate |].
  inversion Hcreate; subst i t'; clear Hcreate.
  rewrite get_challan_status_fits by exact Hfit. simpl.
  rewrite select_challan_app, select_challan_absent.
  - unfold db.select_challan. simpl. rewrite Z.eqb_refl. reflexivity.
  - intros c Hin. apply ids_below_next_rowid in Hin. lia.
Qed.

Lemma created_challan_is_read_back_witness :
  db.get_challan_status 2
    (snd (db.create_challan 130
            {| db.cd_device_type := "tablet";
               db.cd_device_model := "Samsung Galaxy Tab S9";
               db.cd_serial_number := "SN2000000002"; db.cd_quantity := 2;
               db.cd_purpose := "Training session";
               db.cd_requested_by := "bob_marketing" |} manager_approved)) =
  (inr (Some (db.new_row 2 130
                {| db.cd_device_type := "tablet";
                   db.cd_device_model := "Samsung Galaxy Tab S9";
                   db.cd_serial_number := "SN2000000002"; db.cd_quantity := 2;
                   db.cd_purpose := "Training session";
                   db.cd_requested_by := "bob_marketing" |})),
   snd (db.create_challan 130
          {| db.cd_device_type := "tablet";
             db.cd_device_model := "Samsung Galaxy Tab S9";
             db.cd_serial_number := "SN2000000002"; db.cd_quantity := 2;
             db.cd_purpose := "Training session";
             db.cd_requested_by := "bob_marketing" |} manager_approved)).
Proof.
  apply (created_challan_is_read_back 130 _ manager_approved).
  - reflexivity.
  - reflexivity.
Defined.

(** X4: Creating a request, whether the call succeeds or fails, leaves every
    request that could be read before readable under the same id and with
    the same content. *)
Theorem create_keeps_existing_requests (now : Timestamp)
    (dt dm sn : string) (q : Z) (p rb : string) (t : Tables) (j : Z)
    (c : Challan) :
  db.get_challan_status j t = (inr (Some c), t) ->
  db.get_challan_status j
    (snd (mcp_server.create_challan now dt dm sn q p rb t)) =
  (inr (Some c), snd (mcp_server.create_challan now dt dm sn q p rb t)).
Proof.
  intros Hget.
  apply get_challan_status_found in Hget as (Hfit & Hsel & _).
  rewrite get_challan_status_fits by exact Hfit.
  rewrite create_challan_cases.
  destruct (db.select_user rb (users t)); [| simpl; rewrite Hsel; reflexivity].
  destruct (fits_sqlite_integer q); [| simpl; rewrite Hsel; reflexivity].
  destruct (db.serial_taken sn (challans t));
    [simpl; rewrite Hsel; reflexivity |].
  simpl. rewrite select_challan_app, Hsel. reflexivity.
Qed.

Lemma create_keeps_existing_requests_witness :
  exists c,
    db.get_challan_status 1 manager_approved =
      (inr (Some c), manager_approved) /\
    fst (db.get_challan_status 1
           (snd (mcp_server.create_challan 130 "tablet"
                   "Samsung Galaxy Tab S9" "SN2000000002" 2
                   "Training session" "bob_marketing" manager_approved))) =
    inr (Some c).
Proof.
  eexists. split; [reflexivity |].
  rewrite (create_keeps_existing_requests 130 "tablet"
             "Samsung Galaxy Tab S9" "SN2000000002" 2 "Training session"
             "bob_marketing" manager_approved 1 _ eq_refl).
  reflexivity.
Defined.

(** ** The primary key *)

Lemma update_where_id_ids (i : Z) (role status : string) (now : Timestamp)
    (rm : option string) (rows : list Challan) :
  map id (db.update_where_id i (stage_setter role status now rm) rows) =
  map id rows.
Proof.
  unfold db.update_where_id. rewrite map_map. apply map_ext.
  intros c. destruct (id c =? i); [apply stage_setter_id | reflexivity].
Qed.

Lemma ids_unique_insert (rows : list Challan) (c : Challan) :
  ids_unique rows -> id c = db.next_rowid rows -> ids_unique (rows ++ [c]).
Proof.
  unfold ids_unique. intros Hnd Hid.
  rewrite map_app. simpl.
  apply NoDup_app; [exact Hnd | repeat constructor; simpl; tauto |].
  intros n Hin [<- | []].
  apply in_map_iff in Hin as (d & Hd & Hin).
  apply ids_below_next_rowid in Hin. lia.
Qed.

(** X5: Distinct ids are an invariant of the three tools that write: create
    gives the new request an id no stored request has, and approve and
    reject never change an id. *)
Theorem ids_stay_unique (now : Timestamp) (t : Tables)
    (dt dm sn p rb : string) (q i : Z) (role actor reason : string)
    (rm : option string) :
  ids_unique (challans t) ->
  ids_unique
    (challans (snd (mcp_server.create_challan now dt dm sn q p rb t))) /\
  ids_unique
    (challans (snd (mcp_server.approve_challan now i role actor rm t))) /\
  ids_unique
    (challans (snd (mcp_server.reject_challan now i role actor reason t))).
Proof.
  intros Hu. split; [| split].
  - rewrite create_challan_cases.
    destruct (db.select_user rb (users t)); [| exact Hu].
    destruct (fits_sqlite_integer q); [| exact Hu].
    destruct (db.serial_taken sn (challans t)); [exact Hu |].
    simpl. apply ids_unique_insert; [exact Hu | reflexivity].
  - rewrite approve_challan_cases.
    repeat match goal with
           | |- context [if ?b then _ else _] => destruct b
           | |- context [match ?o with Some _ => _ | None => _ end] =>
               destruct o
           end; try exact Hu.
    unfold ids_unique. simpl. rewrite update_where_id_ids. exact Hu.
  - rewrite reject_challan_cases.
    repeat match goal with
           | |- context [if ?b then _ else _] => destruct b
           | |- context [match ?o with Some _ => _ | None => _ end] =>
               destruct o
           end; try exact Hu.
    unfold ids_unique. simpl. rewrite update_where_id_ids. exact Hu.
Qed.

Lemma ids_stay_unique_witness :
  ids_unique
    (challans
       (snd (mcp_server.create_challan 130 "tablet" "Samsung Galaxy Tab S9"
               "SN2000000002" 2 "Training session" "bob_marketing"
               manager_approved))) /\
  ids_unique
    (challans
       (snd (mcp_server.approve_challan 130 1 "hod" "mike_hod" None
               manager_approved))) /\
  ids_unique
    (challans
       (snd (mcp_server.reject_challan 130 1 "hod" "mike_hod" "no budget"
               manager_approved))).
Proof.
  apply (ids_stay_unique 130 manager_approved "tablet"
           "Samsung Galaxy Tab S9" "SN2000000002" "Training session"
           "bob_marketing" 2 1 "hod" "mike_hod" "no budget" None).
  repeat constructor; simpl; tauto.
Defined.

(** ** Updates and the requests they reach *)

Lemma update_where_id_absent (i : Z) (f : Challan -> Challan)
    (rows : list Challan) :
  db.select_challan i rows = None -> db.update_where_id i f rows = rows.
Proof.
  unfold db.select_challan, db.update_where_id.
  induction rows as [| c rows IH]; simpl; [reflexivity |].
  destruct (id c =? i); [discriminate |].
  intros H. rewrite (IH H). reflexivity.
Qed.

(** X6: For an id that no request has, [update_approval_status] returns
    normally, for every role, and leaves the tables as they were: the store
    does not report the missing request. *)
Theorem update_of_missing_request_is_silent (now : Timestamp) (i : Z)
    (role status : string) (rm : option string) (t : Tables) :
  db.get_challan_status i t = (inr None, t) ->
  db.update_approval_status now i role status rm t = (inr tt, t).
Proof.
  unfold db.get_challan_status, bind_integer, get_tables, bind, ret, raise.
  destruct (fits_sqlite_integer i) eqn:Hfit; [| discriminate].
  intros Hget. inversion Hget as [Hsel].
  rewrite update_approval_status_fits by exact Hfit.
  rewrite update_where_id_absent by exact Hsel.
  rewrite with_challans_same. reflexivity.
Qed.

Lemma update_of_missing_request_is_silent_witness :
  db.update_approval_status 120 7 "manager" "approved" (Some "fine")
    manager_approved = (inr tt, manager_approved).
Proof.
  apply (update_of_missing_request_is_silent 120 7 "manager" "approved"
           (Some "fine") manager_approved).
  reflexivity.
Defined.

(** The tools, unlike the store, report a missing request: approve and
    reject on an id that no request has answer that the challan was not
    found, whoever the actor is and whatever the role, and write
    nothing. *)
Theorem decide_on_missing_request_is_not_found (now : Timestamp) (i : Z)
    (role actor reason : string) (rm : option string) (t : Tables) :
  db.get_challan_status i t = (inr None, t) ->
  mcp_server.approve_challan now i role actor rm t =
    (mcp_server.ChallanNotFound i, t) /\
  mcp_server.reject_challan now i role actor reason t =
    (mcp_server.ChallanNotFound i, t).
Proof.
  unfold db.get_challan_status, bind_integer, get_tables, bind, ret, raise.
  destruct (fits_sqlite_integer i) eqn:Hfit; [| discriminate].
  intros Hget. inversion Hget as [Hsel].
  rewrite approve_challan_cases, reject_challan_cases, Hfit, Hsel. auto.
Qed.

Lemma decide_on_missing_request_is_not_found_witness :
  mcp_server.approve_challan 120 7 "manager" "john_manager" None
    manager_approved = (mcp_server.ChallanNotFound 7, manager_approved) /\
  mcp_server.reject_challan 120 7 "manager" "nobody" "no" manager_approved =
    (mcp_server.ChallanNotFound 7, manager_approved).
Proof.
  split.
  - apply (decide_on_missing_request_is_not_found 120 7 "manager"
             "john_manager" "no" None manager_approved).
    reflexivity.
  - apply (decide_on_missing_request_is_not_found 120 7 "manager"
             "nobody" "no" None manager_approved).
    reflexivity.
Defined.

Lemma update_where_id_others (i : Z) (f : Challan -> Challan)
    (rows : list Challan) :
  Forall2 (fun c c' => id c <> i -> c' = c) rows (db.update_where_id i f rows).
Proof.
  unfold db.update_where_id.
  induction rows as [| c rows IH]; simpl; constructor; auto.
  destruct (Z.eqb_spec (id c) i); [contradiction | reflexivity].
Qed.

Lemma others_refl (i : Z) (rows : list Challan) :
  Forall2 (fun c c' => id c <> i -> c' = c) rows rows.
Proof. induction rows; constructor; auto. Qed.

(** X7: A stage update, an approve call and a reject call aimed at request [i]
    leave every request with another id exactly as it was, column for
    column. *)
Theorem decide_leaves_other_requests (now : Timestamp) (i : Z)
    (role actor reason status : string) (rm : option string) (t : Tables) :
  let unchanged_but_i := Forall2 (fun c c' => id c <> i -> c' = c) in
  unchanged_but_i (challans t)
    (challans (snd (db.update_approval_status now i role status rm t))) /\
  unchanged_but_i (challans t)
    (challans (snd (mcp_server.approve_challan now i role actor rm t))) /\
  unchanged_but_i (challans t)
    (challans (snd (mcp_server.reject_challan now i role actor reason t))).
Proof.
  cbv zeta. split; [| split].
  - rewrite update_approval_status_fits_or_same.
    destruct (fits_sqlite_integer i); simpl;
      auto using others_refl, update_where_id_others.
  - rewrite approve_challan_cases.
    repeat match goal with
           | |- context [if ?b then _ else _] => destruct b
           | |- context [match ?o with Some _ => _ | None => _ end] =>
               destruct o
           end; simpl; auto using others_refl, update_where_id_others.
  - rewrite reject_challan_cases.
    repeat match goal with
           | |- context [if ?b then _ else _] => destruct b
           | |- context [match ?o with Some _ => _ | None => _ end] =>
               destruct o
           end; simpl; auto using others_refl, update_where_id_others.
Qed.

(** ** Three approvals in a row *)

Lemma approve_accepted (now : Timestamp) (i : Z) (role actor : string)
    (rm : option string) (t : Tables) (c : Challan) (u : User) :
  is_stage role ->
  db.get_challan_status i t = (inr (Some c), t) ->
  db.get_user_by_username actor t = (inr (Some u), t) ->
  user_role u = role ->
  earlier_stages_approved role c = true ->
  exists t',
    mcp_server.approve_challan now i role actor rm t =
      (mcp_server.Approved i actor role rm, t') /\
    db.get_challan_status i t' =
      (inr (Some (stage_setter role "approved" now rm c)), t') /\
    users t' = users t.
Proof.
  intros Hstage Hget Husr Hrole Hearlier.
  apply get_challan_status_found in Hget as (Hfit & Hsel & _).
  assert (Hu : db.select_user actor (users t) = Some u)
    by (unfold_db; congruence).
  rewrite approve_challan_cases, Hfit, Hsel, Hu.
  apply String.eqb_eq in Hrole. rewrite Hrole. simpl negb. cbv iota.
  assert (Hguards :
    ((role =? "hod")%string
     && negb (manager_status c =? "approved")%string = false) /\
    ((role =? "it_admin")%string
     && (negb (manager_status c =? "approved")%string
         || negb (hod_status c =? "approved")%string) = false)).
  { unfold earlier_stages_approved in Hearlier.
    destruct Hstage as [-> | [-> | ->]]; simpl in *.
    - auto.
    - rewrite Hearlier. auto.
    - apply andb_prop in Hearlier as [-> ->]. auto. }
  destruct Hguards as [-> ->].
  eexists. split; [reflexivity |]. split; [| reflexivity].
  rewrite get_challan_status_fits by exact Hfit. simpl.
  rewrite select_after_update by (intros; apply stage_setter_id).
  rewrite Hsel. reflexivity.
Qed.

(** X8: Whatever state an existing request is in, three approve calls in the
    order manager, hod, it_admin, each by a user holding the role, are all
    accepted, and they leave the request with its three stages approved
    and the final status approved. *)
Theorem three_approvals_approve_any_request (n1 n2 n3 : Timestamp) (i : Z)
    (m h a : string) (r1 r2 r3 : option string) (t : Tables) (c : Challan)
    (um uh ua : User) :
  db.get_challan_status i t = (inr (Some c), t) ->
  db.get_user_by_username m t = (inr (Some um), t) ->
  user_role um = "manager" ->
  db.get_user_by_username h t = (inr (Some uh), t) ->
  user_role uh = "hod" ->
  db.get_user_by_username a t = (inr (Some ua), t) ->
  user_role ua = "it_admin" ->
  let s1 := mcp_server.approve_challan n1 i "manager" m r1 t in
  let s2 := mcp_server.approve_challan n2 i "hod" h r2 (snd s1) in
  let s3 := mcp_server.approve_challan n3 i "it_admin" a r3 (snd s2) in
  fst s1 = mcp_server.Approved i m "manager" r1 /\
  fst s2 = mcp_server.Approved i h "hod" r2 /\
  fst s3 = mcp_server.Approved i a "it_admin" r3 /\
  exists c',
    db.get_challan_status i (snd s3) = (inr (Some c'), snd s3) /\
    manager_status c' = "approved" /\ hod_status c' = "approved" /\
    it_status c' = "approved" /\ final_status c' = "approved" /\
    derived_final_status c' = "approved".
Proof.
  intros Hget Hm Hrm Hh Hrh Ha Hra. cbv zeta.
  assert (Husers : forall name t1 t2 (u : User),
             users t2 = users t1 ->
             db.get_user_by_username name t1 = (inr (Some u), t1) ->
             db.get_user_by_username name t2 = (inr (Some u), t2)).
  { intros name t1 t2 u E H. unfold_db. rewrite E. congruence. }
  destruct (approve_accepted n1 i "manager" m r1 t c um
              (or_introl eq_refl) Hget Hm Hrm eq_refl)
    as (t1 & E1 & G1 & U1).
  rewrite E1. simpl snd.
  destruct (approve_accepted n2 i "hod" h r2 t1 _ uh
              (or_intror (or_introl eq_refl)) G1
              (Husers _ _ _ _ U1 Hh) Hrh eq_refl)
    as (t2 & E2 & G2 & U2).
  rewrite E2. simpl snd.
  destruct (approve_accepted n3 i "it_admin" a r3 t2 _ ua
              (or_intror (or_intror eq_refl)) G2
              (Husers _ _ _ _ (eq_trans U2 U1) Ha) Hra eq_refl)
    as (t3 & E3 & G3 & U3).
  rewrite E3. simpl.
  repeat split. eexists. split; [exact G3 |]. repeat split.
Qed.

Lemma three_approvals_approve_any_request_witness :
  let s1 :=
    mcp_server.approve_challan 120 1 "manager" "sara_director" None
      manager_rejected in
  let s2 := mcp_server.approve_challan 130 1 "hod" "lisa_hod" None (snd s1) in
  let s3 :=
    mcp_server.approve_challan 140 1 "it_admin" "inventory_mgr" None (snd s2) in
  fst s1 = mcp_server.Approved 1 "sara_director" "manager" None /\
  fst s2 = mcp_server.Approved 1 "lisa_hod" "hod" None /\
  fst s3 = mcp_server.Approved 1 "inventory_mgr" "it_admin" None /\
  exists c',
    db.get_challan_status 1 (snd s3) = (inr (Some c'), snd s3) /\
    manager_status c' = "approved" /\ hod_status c' = "approved" /\
    it_status c' = "approved" /\ final_status c' = "approved" /\
    derived_final_status c' = "approved".
Proof.
  refine (three_approvals_approve_any_request 120 130 140 1 "sara_director"
            "lisa_hod" "inventory_mgr" None None None manager_rejected
            _ _ _ _ _ _ _ _ _ _ _);
    reflexivity.
Defined.

(** ** Where the stored final status is kept right *)

Lemma select_challan_unique (i : Z) (rows : list Challan) (c : Challan) :
  ids_unique rows -> In c rows -> id c = i ->
  db.select_challan i rows = Some c.
Proof.
  unfold ids_unique, db.select_challan.
  induction rows as [| d rows IH]; simpl; intros Hnd Hin Hid; [tauto |].
  inversion Hnd as [| ? ? Hnotin Hnd']; subst.
  destruct (Z.eqb_spec (id d) (id c)) as [E | E].
  - destruct Hin as [-> | Hin]; [reflexivity |].
    exfalso. apply Hnotin. rewrite E. apply in_map. exact Hin.
  - destruct Hin as [-> | Hin]; [congruence |].
    apply IH; auto.
Qed.

Lemma update_where_id_Forall (P : Challan -> Prop) (i : Z)
    (f : Challan -> Challan) (rows : list Challan) (c0 : Challan) :
  ids_unique rows -> db.select_challan i rows = Some c0 ->
  Forall P rows -> P (f c0) -> Forall P (db.update_where_id i f rows).
Proof.
  intros Hu Hsel Hall Hf.
  unfold db.update_where_id. apply Forall_map, Forall_forall.
  intros c Hin. destruct (Z.eqb_spec (id c) i) as [E | E].
  - assert (Hc : db.select_challan i rows = Some c)
      by (apply select_challan_unique; assumption).
    rewrite Hsel in Hc. inversion Hc; subst. exact Hf.
  - rewrite Forall_forall in Hall. apply Hall. exact Hin.
Qed.

Lemma tracked_new_row (i : Z) (now : Timestamp) (d : db.ChallanData) :
  final_status_tracked (db.new_row i now d).
Proof. unfold final_status_tracked. simpl. auto. Qed.

Lemma tracked_after_approval (role : string) (now : Timestamp)
    (rm : option string) (c : Challan) :
  (role =? "hod")%string
  && negb (manager_status c =? "approved")%string = false ->
  (role =? "it_admin")%string
  && (negb (manager_status c =? "approved")%string
      || negb (hod_status c =? "approved")%string) = false ->
  final_status_tracked c ->
  final_status_tracked (stage_setter role "approved" now rm c).
Proof.
  unfold stage_setter, final_status_tracked, derived_final_status,
    derive_final_status.
  intros Hhod Hit (Hfinal & Hm & Hh & Hi).
  destruct (role =? "manager")%string;
    [| destruct (role =? "hod")%string;
       [| destruct (role =? "it_admin")%string]];
    simpl in *.
  - destruct Hm as [Hm | Hm];
      destruct Hh as [Hh | [Hh Hm']];
      destruct Hi as [Hi | [Hi | (Hi & Hm'' & Hh')]];
      rewrite ?Hm, ?Hh, ?Hi in *; try discriminate; simpl in *; auto 10.
  - destruct Hm as [Hm | Hm];
      destruct Hh as [Hh | [Hh Hm']];
      destruct Hi as [Hi | [Hi | (Hi & Hm'' & Hh')]];
      rewrite ?Hm, ?Hh, ?Hi in *; try discriminate; simpl in *; auto 10.
  - destruct Hm as [Hm | Hm];
      destruct Hh as [Hh | [Hh Hm']];
      destruct Hi as [Hi | [Hi | (Hi & Hm'' & Hh')]];
      rewrite ?Hm, ?Hh, ?Hi in *; try discriminate; simpl in *; auto 10.
  - auto.
Qed.

Lemma tracked_after_late_rejection (role : string) (now : Timestamp)
    (rm : option string) (c : Challan) :
  role <> "manager" -> role <> "hod" ->
  final_status_tracked c ->
  final_status_tracked (stage_setter role "rejected" now rm c).
Proof.
  unfold stage_setter, final_status_tracked, derived_final_status,
    derive_final_status.
  intros Hnm Hnh (Hfinal & Hm & Hh & Hi).
  apply String.eqb_neq in Hnm, Hnh. rewrite Hnm, Hnh.
  destruct (role =? "it_admin")%string; simpl; [| auto].
  destruct Hm as [Hm | Hm];
    destruct Hh as [Hh | [Hh Hm']];
    rewrite ?Hm, ?Hh in *; try discriminate; simpl; auto 10.
Qed.

(** X9: As long as no request is rejected at the manager or the hod stage, the
    stored final status stays the derived one: on tables with distinct ids
    in which every request is tracked, a create call, any approve call and
    any reject call aimed at the IT stage (or at no stage) leave every
    request tracked. *)
Theorem final_status_tracked_without_early_rejection (now : Timestamp)
    (t : Tables) (dt dm sn p rb : string) (q i : Z)
    (role actor reason : string) (rm : option string) :
  ids_unique (challans t) ->
  Forall final_status_tracked (challans t) ->
  Forall final_status_tracked
    (challans (snd (mcp_server.create_challan now dt dm sn q p rb t))) /\
  Forall final_status_tracked
    (challans (snd (mcp_server.approve_challan now i role actor rm t))) /\
  (role <> "manager" -> role <> "hod" ->
   Forall final_status_tracked
     (challans (snd (mcp_server.reject_challan now i role actor reason t)))).
Proof.
  intros Hu Hall. split; [| split].
  - rewrite create_challan_cases.
    destruct (db.select_user rb (users t)); [| exact Hall].
    destruct (fits_sqlite_integer q); [| exact Hall].
    destruct (db.serial_taken sn (challans t)); [exact Hall |].
    simpl. apply Forall_app. split; [exact Hall |].
    constructor; [apply tracked_new_row | constructor].
  - rewrite approve_challan_cases.
    destruct (fits_sqlite_integer i); [| exact Hall].
    destruct (db.select_challan i (challans t)) as [c0 |] eqn:Hsel;
      [| exact Hall].
    destruct (db.select_user actor (users t)); [| exact Hall].
    destruct (negb (user_role u =? role)%string); [exact Hall |].
    destruct ((role =? "hod")%string && _) eqn:Hhod; [exact Hall |].
    destruct ((role =? "it_admin")%string && _) eqn:Hit; [exact Hall |].
    simpl. eapply update_where_id_Forall; eauto.
    apply tracked_after_approval; auto.
    apply select_challan_In in Hsel as [Hin _].
    rewrite Forall_forall in Hall. auto.
  - intros Hnm Hnh. rewrite reject_challan_cases.
    destruct (fits_sqlite_integer i); [| exact Hall].
    destruct (db.select_challan i (challans t)) as [c0 |] eqn:Hsel;
      [| exact Hall].
    destruct (db.select_user actor (users t)); [| exact Hall].
    destruct (negb (user_role u =? role)%string); [exact Hall |].
    simpl. eapply update_where_id_Forall; eauto.
    apply tracked_after_late_rejection; auto.
    apply select_challan_In in Hsel as [Hin _].
    rewrite Forall_forall in Hall. auto.
Qed.

Lemma final_status_tracked_without_early_rejection_witness :
  Forall final_status_tracked
    (challans
       (snd (mcp_server.create_challan 130 "tablet" "Samsung Galaxy Tab S9"
               "SN2000000002" 2 "Training session" "bob_marketing"
               manager_approved))) /\
  Forall final_status_tracked
    (challans
       (snd (mcp_server.approve_challan 130 1 "it_admin" "tech_admin" None
               manager_approved))) /\
  Forall final_status_tracked
    (challans
       (snd (mcp_server.reject_challan 130 1 "it_admin" "tech_admin"
               "Inventory shortage" manager_approved))).
Proof.
  assert (Hu : ids_unique (challans manager_approved))
    by (unfold ids_unique; simpl; repeat constructor; simpl; tauto).
  assert (Hall : Forall final_status_tracked (challans manager_approved))
    by (repeat constructor; unfold final_status_tracked; simpl; auto).
  destruct (final_status_tracked_without_early_rejection 130 manager_approved
              "tablet" "Samsung Galaxy Tab S9" "SN2000000002"
              "Training session" "bob_marketing" 2 1 "it_admin" "tech_admin"
              "Inventory shortage" None Hu Hall) as (Hc & Ha & Hr).
  split; [exact Hc |]. split; [exact Ha |].
  apply Hr; discriminate.
Defined.

(** * Further properties: sample data, catalogue and reading tools *)

(** ** The status flow of a sample request *)

(** X10: Whatever the random draws are, [_generate_status_flow] yields a state
    the workflow can be in: a later stage is decided only after the stage
    before it was approved, the final status is the derived one, a stage
    has a date exactly when it is decided, and there are remarks exactly
    when the final status is not pending. *)
Theorem sample_status_flow_is_consistent (now : Timestamp)
    (m h i : db.StatusOption) (dm dh di dr : Z) :
  let flow := db.generate_status_flow_dict now m h i dm dh di dr in
  db.flow_final_status flow =
    derive_final_status (db.flow_manager_status flow)
      (db.flow_hod_status flow) (db.flow_it_status flow) /\
  (db.flow_hod_status flow <> "pending" ->
   db.flow_manager_status flow = "approved") /\
  (db.flow_it_status flow <> "pending" ->
   db.flow_hod_status flow = "approved") /\
  (db.flow_manager_date flow = None <->
   db.flow_manager_status flow = "pending") /\
  (db.flow_hod_date flow = None <-> db.flow_hod_status flow = "pending") /\
  (db.flow_it_date flow = None <-> db.flow_it_status flow = "pending") /\
  (db.flow_remarks flow = None <-> db.flow_final_status flow = "pending").
Proof.
  destruct m, h, i; cbv zeta; simpl;
    repeat split; intros; try reflexivity; try congruence;
      try discriminate.
Qed.

(** X11: With the day counts in the ranges [randint] draws them from (at least
    one day each), the dates of a sample request follow the stages: the
    manager date lies before the clock reading, the hod date after the
    manager date, the IT date after the hod date. *)
Theorem sample_status_flow_dates_increase (now : Timestamp)
    (m h i : db.StatusOption) (dm dh di dr : Z) :
  1 <= dm -> 1 <= dh -> 1 <= di -> 1 <= dr ->
  let flow := db.generate_status_flow_dict now m h i dm dh di dr in
  (forall md, db.flow_manager_date flow = Some md -> md < now) /\
  (forall md hd,
     db.flow_manager_date flow = Some md ->
     db.flow_hod_date flow = Some hd -> md < hd) /\
  (forall hd id,
     db.flow_hod_date flow = Some hd ->
     db.flow_it_date flow = Some id -> hd < id).
Proof.
  intros Hm Hh Hi Hr. unfold db.days.
  destruct m, h, i; cbv zeta; simpl;
    repeat split; intros; try discriminate;
    repeat match goal with
           | H : Some _ = Some _ |- _ => inversion H; clear H; subst
           end; unfold db.days; lia.
Qed.

Lemma sample_status_flow_dates_increase_witness :
  let flow :=
    db.generate_status_flow_dict 5000000000000 db.approved db.approved
      db.rejected 20 5 3 5 in
  (forall md, db.flow_manager_date flow = Some md -> md < 5000000000000) /\
  (forall md hd,
     db.flow_manager_date flow = Some md ->
     db.flow_hod_date flow = Some hd -> md < hd) /\
  (forall hd id,
     db.flow_hod_date flow = Some hd ->
     db.flow_it_date flow = Some id -> hd < id).
Proof.
  apply (sample_status_flow_dates_increase 5000000000000 db.approved
           db.approved db.rejected 20 5 3 5); lia.
Defined.

(** ** The device catalogue *)

Lemma catalog_le_total (a b : db.CatalogEntry) :
  db.catalog_le a b = false -> db.catalog_le b a = true.
Proof.
  unfold db.catalog_le.
  rewrite (String.compare_antisym (db.ce_device_type b) (db.ce_device_type a)).
  destruct (String.compare (db.ce_device_type a) (db.ce_device_type b));
    simpl; try congruence.
  intros H.
  destruct (String.leb_total (db.ce_device_model a) (db.ce_device_model b));
    congruence.
Qed.

Lemma insert_entry_perm (e : db.CatalogEntry) (l : list db.CatalogEntry) :
  Permutation (db.insert_entry e l) (e :: l).
Proof.
  induction l as [| d l IH]; simpl; [apply Permutation_refl |].
  destruct (db.catalog_le e d).
  - apply Permutation_refl.
  - eapply perm_trans; [apply perm_skip, IH | apply perm_swap].
Qed.

Lemma sort_entries_perm (l : list db.CatalogEntry) :
  Permutation (fold_right db.insert_entry [] l) l.
Proof.
  induction l as [| e l IH]; simpl; [constructor |].
  eapply perm_trans; [apply insert_entry_perm | apply perm_skip, IH].
Qed.

Lemma insert_entry_sorted (e : db.CatalogEntry) (l : list db.CatalogEntry) :
  Sorted (fun a b => db.catalog_le a b = true) l ->
  Sorted (fun a b => db.catalog_le a b = true) (db.insert_entry e l).
Proof.
  induction l as [| d l IH]; simpl; intros Hs.
  - repeat constructor.
  - inversion Hs as [| ? ? Hrest Hhd]; subst.
    destruct (db.catalog_le e d) eqn:E.
    + constructor; [exact Hs | constructor; exact E].
    + constructor; [apply IH; exact Hrest |].
      destruct l as [| d' l]; simpl.
      * constructor. apply catalog_le_total; exact E.
      * destruct (db.catalog_le e d').
        -- constructor. apply catalog_le_total; exact E.
        -- inversion Hhd; subst. constructor. assumption.
Qed.

(** X12: [get_available_devices] writes nothing and returns each combination
    of device type, model and category that occurs in the [devices] table
    exactly once, ordered by device type and, within a type, by device
    model. *)
Theorem available_devices_distinct_and_ordered (t : Tables) :
  exists rows,
    db.get_available_devices t = (inr rows, t) /\
    NoDup rows /\
    (forall e, In e rows <-> exists d, In d (devices t) /\ db.entry_of d = e) /\
    Sorted (fun a b => db.catalog_le a b = true) rows.
Proof.
  eexists. split; [reflexivity |]. split; [| split].
  - eapply Permutation_NoDup;
      [apply Permutation_sym, sort_entries_perm | apply NoDup_nodup].
  - intros e. split.
    + intros Hin. apply (Permutation_in _ (sort_entries_perm _)) in Hin.
      apply nodup_In, in_map_iff in Hin as (d & Hd & Hin). eauto.
    + intros (d & Hin & <-).
      apply (Permutation_in _ (Permutation_sym (sort_entries_perm _))).
      apply nodup_In, in_map. exact Hin.
  - induction (nodup db.CatalogEntry_eq_dec (map db.entry_of (devices t)))
      as [| e l IH]; simpl; [constructor |].
    apply insert_entry_sorted, IH.
Qed.

(** ** Grouping the catalogue by device type *)

Lemma append_to_group_keys (d : db.CatalogEntry)
    (groups : list (string * list db.CatalogEntry)) :
  (In (db.ce_device_type d) (map fst groups) ->
   map fst (mcp_server.append_to_group d groups) = map fst groups) /\
  (~ In (db.ce_device_type d) (map fst groups) ->
   map fst (mcp_server.append_to_group d groups) =
   (map fst groups ++ [db.ce_device_type d])%list).
Proof.
  induction groups as [| [k ms] groups [IHin IHout]]; simpl.
  - split; [tauto | reflexivity].
  - destruct (String.eqb_spec k (db.ce_device_type d)) as [E | E]; simpl.
    + split; [reflexivity | tauto].
    + split.
      * intros [Hk | Hin]; [contradiction |]. rewrite IHin by exact Hin.
        reflexivity.
      * intros Hnot. rewrite IHout by tauto. reflexivity.
Qed.

Lemma filter_snoc (f : db.CatalogEntry -> bool) (l : list db.CatalogEntry)
    (d : db.CatalogEntry) :
  filter f (l ++ [d]) = (filter f l ++ if f d then [d] else [])%list.
Proof. rewrite filter_app. reflexivity. Qed.

Lemma append_to_group_members (seen : list db.CatalogEntry)
    (d : db.CatalogEntry) (groups : list (string * list db.CatalogEntry)) :
  ~ In (db.ce_device_type d) (map fst groups) \/ NoDup (map fst groups) ->
  (~ In (db.ce_device_type d) (map fst groups) ->
   filter (fun x => (db.ce_device_type x =? db.ce_device_type d)%string) seen
   = []) ->
  Forall (fun g =>
            snd g =
              filter (fun x => (db.ce_device_type x =? fst g)%string) seen /\
            snd g <> []) groups ->
  Forall (fun g =>
            snd g =
              filter (fun x => (db.ce_device_type x =? fst g)%string)
                (seen ++ [d]) /\
            snd g <> []) (mcp_server.append_to_group d groups).
Proof.
  induction groups as [| [k ms] groups IH]; simpl; intros Hkeys Hnew Hall.
  - constructor; [| constructor]. simpl.
    rewrite filter_snoc, String.eqb_refl, Hnew by tauto.
    split; [reflexivity | discriminate].
  - inversion Hall as [| ? ? [Hms Hne] Hrest]; subst. simpl in *.
    destruct (String.eqb_spec k (db.ce_device_type d)) as [E | E].
    + constructor; simpl.
      * rewrite filter_snoc. subst k. rewrite String.eqb_refl.
        split; [rewrite <- Hms; reflexivity |].
        destruct ms; discriminate.
      * destruct Hkeys as [Hnot | Hnd]; [tauto |].
        inversion Hnd as [| ? ? Hnotin _]; subst.
        eapply Forall_impl; [| apply Forall_and;
                                 [exact Hrest | apply Forall_forall;
                                                intros g Hg; exact Hg]].
        intros [k' ms'] [[Hms' Hne'] Hin]. simpl in *.
        rewrite filter_snoc.
        destruct (String.eqb_spec (db.ce_device_type d) k') as [E' | E'].
        -- exfalso. apply Hnotin. rewrite E'.
           apply (in_map fst) in Hin. exact Hin.
        -- rewrite app_nil_r. auto.
    + constructor; simpl.
      * rewrite filter_snoc.
        destruct (String.eqb_spec (db.ce_device_type d) k) as [E' | E'];
          [congruence |].
        rewrite app_nil_r. auto.
      * apply IH; [| | exact Hrest].
        -- destruct Hkeys as [Hnot | Hnd]; [left; tauto |].
           right. inversion Hnd; assumption.
        -- intros Hnot. apply Hnew. intros [Hk | Hin]; tauto.
Qed.

Lemma append_to_group_grouped (seen : list db.CatalogEntry)
    (d : db.CatalogEntry) (groups : list (string * list db.CatalogEntry)) :
  grouped seen groups ->
  grouped (seen ++ [d]) (mcp_server.append_to_group d groups).
Proof.
  intros (Hnd & Hall & Hcover). unfold grouped.
  assert (Hfresh :
    ~ In (db.ce_device_type d) (map fst groups) ->
    filter (fun x => (db.ce_device_type x =? db.ce_device_type d)%string) seen
    = []).
  { intros Hnot.
    destruct (filter _ seen) as [| x l] eqn:E; [reflexivity |].
    assert (Hx : In x (x :: l)) by (left; reflexivity).
    rewrite <- E in Hx. apply filter_In in Hx as [Hin Heq].
    apply String.eqb_eq in Heq. exfalso. apply Hnot.
    rewrite <- Heq. apply Hcover. exact Hin. }
  split; [| split].
  - destruct (append_to_group_keys d groups) as [Kin Kout].
    destruct (in_dec string_dec (db.ce_device_type d) (map fst groups))
      as [Hin | Hout]; [rewrite Kin by exact Hin; exact Hnd |].
    rewrite Kout by exact Hout.
    apply NoDup_app; [exact Hnd | repeat constructor; simpl; tauto |].
    intros k Hin [<- | []]. contradiction.
  - apply append_to_group_members; auto.
  - intros x Hin. destruct (append_to_group_keys d groups) as [Kin Kout].
    destruct (in_dec string_dec (db.ce_device_type d) (map fst groups))
      as [Hd | Hd]; [rewrite Kin by exact Hd | rewrite Kout by exact Hd];
      apply in_app_or in Hin as [Hin | [<- | []]].
    + apply Hcover; exact Hin.
    + exact Hd.
    + apply in_or_app; left; apply Hcover; exact Hin.
    + apply in_or_app; right; left; reflexivity.
Qed.

Lemma fold_append_grouped (rest seen : list db.CatalogEntry)
    (groups : list (string * list db.CatalogEntry)) :
  grouped seen groups ->
  grouped (seen ++ rest)
    (fold_left (fun groups device => mcp_server.append_to_group device groups)
       rest groups).
Proof.
  revert seen groups.
  induction rest as [| d rest IH]; simpl; intros seen groups Hg.
  - rewrite app_nil_r. exact Hg.
  - replace (seen ++ d :: rest)%list with ((seen ++ [d]) ++ rest)%list
      by (rewrite <- app_assoc; reflexivity).
    apply IH, append_to_group_grouped, Hg.
Qed.

(** X13: The grouping of [get_available_samsung_devices] shows every device
    type once as a heading and, under it, exactly the devices of that type
    in the order of the catalogue; no heading is empty and no device is
    left out. *)
Theorem devices_grouped_by_type (devices : list db.CatalogEntry) :
  let groups := mcp_server.group_by_type devices in
  NoDup (map fst groups) /\
  Forall (fun g =>
            snd g =
              filter (fun d => (db.ce_device_type d =? fst g)%string) devices
            /\ snd g <> []) groups /\
  (forall d, In d devices -> In (db.ce_device_type d) (map fst groups)).
Proof.
  apply (fold_append_grouped devices [] []).
  unfold grouped. simpl. repeat split; [constructor | constructor | tauto].
Qed.

(** ** The reading tools *)

Lemma get_pending_approvals_for_role_cases (role name : string) (t : Tables) :
  mcp_server.get_pending_approvals_for_role role name t =
  match db.select_user name (users t) with
  | None => (mcp_server.ListingUserNotFound name, t)
  | Some u =>
      if negb (user_role u =? role)%string then
        (mcp_server.ListingRoleNotHeld name role, t)
      else
        match fst (db.get_pending_approvals role t) with
        | inr (c :: rows) => (mcp_server.PendingChallans role (c :: rows), t)
        | _ => (mcp_server.NoChallansPending role, t)
        end
  end.
Proof.
  unfold mcp_server.get_pending_approvals_for_role, mcp_server.reading_tool,
    db.get_user_by_username, bind, get_tables, ret.
  destruct (db.select_user name (users t)) as [u |]; [| reflexivity].
  destruct (negb (user_role u =? role)%string); [reflexivity |].
  destruct (get_pending_approvals_rows role t) as (rows & E & _).
  rewrite E. simpl. destruct rows; reflexivity.
Qed.

Lemma get_all_challans_rows (name : option string) (t : Tables) :
  exists rows, db.get_all_challans name t = (inr rows, t).
Proof. destruct name as [[| a n] |]; eexists; reflexivity. Qed.

Lemma list_my_challans_cases (name : string) (t : Tables) :
  mcp_server.list_my_challans name t =
  match db.select_user name (users t) with
  | None => (mcp_server.ListingUserNotFound name, t)
  | Some _ =>
      match fst (db.get_all_challans (Some name) t) with
      | inr (c :: rows) => (mcp_server.MyChallans name (c :: rows), t)
      | _ => (mcp_server.NoChallansFound name, t)
      end
  end.
Proof.
  unfold mcp_server.list_my_challans, mcp_server.reading_tool,
    db.get_user_by_username, bind, get_tables, ret.
  destruct (db.select_user name (users t)) as [u |]; [| reflexivity].
  destruct (get_all_challans_rows (Some name) t) as (rows & E).
  rewrite E. simpl. destruct rows; reflexivity.
Qed.

Lemma get_pending_approvals_sorted (role : string) (t : Tables)
    (rows : list Challan) :
  db.get_pending_approvals role t = (inr rows, t) -> newest_first rows.
Proof.
  unfold db.get_pending_approvals, bind, get_tables, ret.
  destruct (role =? "manager")%string;
    [| destruct (role =? "hod")%string;
       [| destruct (role =? "it_admin")%string]];
    intros H; inversion H; subst;
    try apply order_by_request_date_desc_newest_first.
  constructor.
Qed.

(** X14: [get_pending_approvals_for_role] lists pending work only to a user
    who exists and whose stored role is the role asked for; the list is
    then not empty, newest first, and holds exactly the requests that
    satisfy the guard of that role. *)
Theorem pending_listing_requires_the_role (role name : string) (t : Tables)
    (r : string) (rows : list Challan) :
  fst (mcp_server.get_pending_approvals_for_role role name t) =
    mcp_server.PendingChallans r rows ->
  r = role /\
  (exists u,
     db.get_user_by_username name t = (inr (Some u), t) /\
     user_role u = role) /\
  rows <> [] /\ newest_first rows /\
  (forall c, In c rows <-> In c (challans t) /\ guard role c = true).
Proof.
  rewrite get_pending_approvals_for_role_cases.
  destruct (db.select_user name (users t)) as [u |] eqn:Hu;
    [| discriminate].
  destruct (user_role u =? role)%string eqn:Hrole; simpl; [| discriminate].
  destruct (get_pending_approvals_rows role t) as (rows' & E & Hrows).
  rewrite E. simpl.
  destruct rows' as [| c rows']; simpl; intros H; inversion H; subst.
  split; [reflexivity |]. split; [| split; [discriminate | split]].
  - exists u. split; [unfold_db; rewrite Hu; reflexivity |].
    apply String.eqb_eq. exact Hrole.
  - eapply get_pending_approvals_sorted. exact E.
  - exact Hrows.
Qed.

Lemma pending_listing_requires_the_role_witness :
  exists rows,
    fst (mcp_server.get_pending_approvals_for_role "hod" "mike_hod"
           manager_approved) = mcp_server.PendingChallans "hod" rows /\
    (exists u,
       db.get_user_by_username "mike_hod" manager_approved =
         (inr (Some u), manager_approved) /\
       user_role u = "hod") /\
    forall c,
      In c rows <-> In c (challans manager_approved) /\ guard "hod" c = true.
Proof.
  eexists. split; [reflexivity |].
  destruct (pending_listing_requires_the_role "hod" "mike_hod"
              manager_approved _ _ eq_refl) as (_ & Hu & _ & _ & Hrows).
  split; [exact Hu | exact Hrows].
Defined.

(** X15: For a user who exists and whose name is not empty, [list_my_challans]
    answers with the requests of that requester and no other, newest
    first, or says that none was found when no request is theirs. *)
Theorem my_challans_are_the_callers (name : string) (t : Tables) (u : User) :
  name <> "" ->
  db.get_user_by_username name t = (inr (Some u), t) ->
  match fst (mcp_server.list_my_challans name t) with
  | mcp_server.MyChallans n rows =>
      n = name /\ newest_first rows /\
      forall c, In c rows <-> In c (challans t) /\ requested_by c = name
  | mcp_server.NoChallansFound n =>
      n = name /\ forall c, In c (challans t) -> requested_by c <> name
  | _ => False
  end.
Proof.
  intros Hname Hu.
  assert (Hsel : db.select_user name (users t) = Some u)
    by (unfold_db; congruence).
  rewrite list_my_challans_cases, Hsel.
  destruct name as [| a n]; [congruence |].
  unfold db.get_all_challans, bind, get_tables, ret. simpl fst.
  set (mine := fun c => (requested_by c =? String a n)%string).
  destruct (db.order_by_request_date_desc (filter mine (challans t)))
    as [| c rows] eqn:E; cbn [fst].
  - split; [reflexivity |]. intros c Hin Hreq.
    assert (Hc : In c (db.order_by_request_date_desc
                         (filter mine (challans t)))).
    { apply in_ordered_filter. split; [exact Hin |].
      apply String.eqb_eq. exact Hreq. }
    rewrite E in Hc. exact Hc.
  - split; [reflexivity |]. split.
    + rewrite <- E. apply order_by_request_date_desc_newest_first.
    + intros x. rewrite <- E, in_ordered_filter. unfold mine.
      rewrite String.eqb_eq. tauto.
Qed.

Lemma my_challans_are_the_callers_witness :
  match fst (mcp_server.list_my_challans "alice_sales" manager_approved) with
  | mcp_server.MyChallans n rows =>
      n = "alice_sales" /\ newest_first rows /\
      forall c,
        In c rows <->
        In c (challans manager_approved) /\ requested_by c = "alice_sales"
  | mcp_server.NoChallansFound n =>
      n = "alice_sales" /\
      forall c,
        In c (challans manager_approved) -> requested_by c <> "alice_sales"
  | _ => False
  end.
Proof.
  apply (my_challans_are_the_callers "alice_sales" manager_approved
           (mk_user 7 "alice_sales" "password123" "user" "Sales"
              "Alice Sales")).
  - discriminate.
  - reflexivity.
Defined.

(** X16: When the users table holds a user whose name is the empty string,
    [list_my_challans] called with that name lists every request of every
    requester: the store treats an empty name as no filter. *)
Theorem empty_username_lists_every_request (t : Tables) (u : User) :
  db.get_user_by_username "" t = (inr (Some u), t) ->
  challans t <> [] ->
  exists rows,
    fst (mcp_server.list_my_challans "" t) = mcp_server.MyChallans "" rows /\
    Permutation rows (challans t).
Proof.
  intros Hu Hne.
  assert (Hsel : db.select_user "" (users t) = Some u)
    by (unfold_db; congruence).
  rewrite list_my_challans_cases, Hsel.
  unfold db.get_all_challans, bind, get_tables, ret. simpl fst.
  pose proof (order_by_request_date_desc_perm (challans t)) as Hperm.
  destruct (db.order_by_request_date_desc (challans t)) as [| c rows].
  - apply Permutation_nil in Hperm. contradiction.
  - eexists. split; [reflexivity | exact Hperm].
Qed.

Lemma empty_username_lists_every_request_witness :
  exists rows,
    fst (mcp_server.list_my_challans ""
           {| devices := [];
              users := [mk_user 11 "" "password123" "user" "Sales" "No Name"];
              challans := challans manager_approved |}) =
      mcp_server.MyChallans "" rows /\
    Permutation rows (challans manager_approved).
Proof.
  apply (empty_username_lists_every_request
           {| devices := [];
              users := [mk_user 11 "" "password123" "user" "Sales" "No Name"];
              challans := challans manager_approved |}
           (mk_user 11 "" "password123" "user" "Sales" "No Name")).
  - reflexivity.
  - discriminate.
Defined.

(** ** The status report *)

Lemma append_assoc (a b c : string) : (a ++ b) ++ c = a ++ (b ++ c).
Proof. induction a as [| x a IH]; simpl; [| rewrite IH]; reflexivity. Qed.

Lemma status_message_ends_with_progress (upper : string -> string)
    (show : Timestamp -> string) (i : Z) (c : Challan) :
  exists before,
    mcp_server.status_message upper show i c =
    before ++ mcp_server.progress_analysis c.
Proof.
  unfold mcp_server.status_message.
  repeat rewrite <- append_assoc. eexists. reflexivity.
Qed.

(** X17: A request with final status and hod status pending, rejected at the
    manager stage by a user holding the manager role: the status tool then
    finds the request with manager status rejected and closes its message,
    for every rendering of dates and upper case, with the line that the
    request is waiting for HOD approval. *)
Theorem manager_rejection_is_reported_as_waiting_for_hod
    (now : Timestamp) (i : Z) (actor reason : string) (t : Tables)
    (c : Challan) (u : User) :
  db.get_challan_status i t = (inr (Some c), t) ->
  db.get_user_by_username actor t = (inr (Some u), t) ->
  user_role u = "manager" ->
  final_status c = "pending" -> hod_status c = "pending" ->
  let t' := snd (mcp_server.reject_challan now i "manager" actor reason t) in
  exists c',
    mcp_server.get_challan_status i t' =
      (inr (mcp_server.StatusMessage i c'), t') /\
    manager_status c' = "rejected" /\
    mcp_server.progress_analysis c' =
      " Waiting for HOD approval..." ++ mcp_server.nl /\
    forall upper show,
      mcp_server.report_text upper show (mcp_server.StatusMessage i c') =
      mcp_server.status_message upper show i c' /\
      exists before,
        mcp_server.status_message upper show i c' =
        before ++ " Waiting for HOD approval..." ++ mcp_server.nl.
Proof.
  intros Hget Husr Hrole Hfinal Hhod. cbv zeta.
  apply get_challan_status_found in Hget as (Hfit & Hsel & _).
  assert (Hu : db.select_user actor (users t) = Some u)
    by (unfold_db; congruence).
  rewrite reject_challan_cases, Hfit, Hsel, Hu.
  apply String.eqb_eq in Hrole. rewrite Hrole. simpl negb. cbv iota.
  cbn [snd].
  exists (stage_setter "manager" "rejected" now (Some reason) c).
  assert (Hprogress :
    mcp_server.progress_analysis
      (stage_setter "manager" "rejected" now (Some reason) c) =
    " Waiting for HOD approval..." ++ mcp_server.nl).
  { unfold mcp_server.progress_analysis. simpl.
    rewrite Hfinal, Hhod. reflexivity. }
  split; [| split; [reflexivity | split; [exact Hprogress |]]].
  - unfold mcp_server.get_challan_status, bind.
    rewrite get_challan_status_fits by exact Hfit. cbn [challans with_challans].
    rewrite select_after_update by (intros; apply stage_setter_id).
    rewrite Hsel. reflexivity.
  - intros upper show. split; [reflexivity |].
    rewrite <- Hprogress. apply status_message_ends_with_progress.
Qed.

Lemma manager_rejection_is_reported_as_waiting_for_hod_witness :
  exists c',
    mcp_server.get_challan_status 1 manager_rejected =
      (inr (mcp_server.StatusMessage 1 c'), manager_rejected) /\
    manager_status c' = "rejected" /\
    mcp_server.progress_analysis c' =
      " Waiting for HOD approval..." ++ mcp_server.nl.
Proof.
  destruct (manager_rejection_is_reported_as_waiting_for_hod 110 1
              "john_manager" "Not aligned with department goals" one_request
              _ _ eq_refl eq_refl eq_refl eq_refl eq_refl)
    as (c' & Hget & Hm & Hp & _).
  exists c'. split; [exact Hget |]. split; [exact Hm | exact Hp].
Defined.

(** X18: For a request whose final status is tracked, the progress line of the
    status message names the stage the request is at: fully approved once
    the IT stage approved, rejected at IT Inventory level once it
    rejected, and otherwise waiting for the first stage that is still
    pending. *)
Theorem progress_line_of_tracked_request (c : Challan) :
  final_status_tracked c ->
  (it_status c = "approved" ->
   mcp_server.progress_analysis c =
   "🎉 Fully approved! Device is ready for allocation." ++ mcp_server.nl) /\
  (it_status c = "rejected" ->
   mcp_server.progress_analysis c =
   " Rejected at IT Inventory level." ++ mcp_server.nl) /\
  (it_status c = "pending" -> manager_status c = "pending" ->
   mcp_server.progress_analysis c =
   " Waiting for Manager approval..." ++ mcp_server.nl) /\
  (it_status c = "pending" -> manager_status c = "approved" ->
   hod_status c = "pending" ->
   mcp_server.progress_analysis c =
   " Waiting for HOD approval..." ++ mcp_server.nl) /\
  (it_status c = "pending" -> manager_status c = "approved" ->
   hod_status c = "approved" ->
   mcp_server.progress_analysis c =
   " Waiting for IT Inventory approval..." ++ mcp_server.nl).
Proof.
  unfold final_status_tracked, derived_final_status, derive_final_status,
    mcp_server.progress_analysis.
  intros (Hfinal & Hm & Hh & Hi). rewrite Hfinal.
  destruct Hm as [Hm | Hm];
    destruct Hh as [Hh | [Hh Hm']];
    destruct Hi as [Hi | [Hi | (Hi & Hm'' & Hh')]];
    rewrite ?Hm, ?Hh, ?Hi in *; try discriminate; simpl;
    repeat split; intros; try discriminate; reflexivity.
Qed.

Lemma progress_line_of_tracked_request_witness :
  exists c,
    db.get_challan_status 1 manager_approved =
      (inr (Some c), manager_approved) /\
    mcp_server.progress_analysis c =
      " Waiting for HOD approval..." ++ mcp_server.nl.
Proof.
  eexists. split; [reflexivity |].
  match goal with
  | |- mcp_server.progress_analysis ?c = _ =>
      destruct (progress_line_of_tracked_request c) as (_ & _ & _ & H & _)
  end.
  - unfold final_status_tracked. simpl. auto.
  - apply H; reflexivity.
Defined.

(** ** The summary of pending work *)

Lemma length_ordered (rows : list Challan) :
  length (db.order_by_request_date_desc rows) = length rows.
Proof. apply Permutation_length, order_by_request_date_desc_perm. Qed.

Lemma length_filter_exclusive (f g : Challan -> bool) (rows : list Challan) :
  (forall c, f c = true -> g c = true -> False) ->
  (length (filter f rows) + length (filter g rows))%nat =
  length (filter (fun c => f c || g c) rows).
Proof.
  intros Hex. induction rows as [| c rows IH]; simpl; [reflexivity |].
  destruct (f c) eqn:Ef, (g c) eqn:Eg; simpl.
  - exfalso. eauto.
  - rewrite <- IH. reflexivity.
  - rewrite <- IH. rewrite Nat.add_succ_r. reflexivity.
  - exact IH.
Qed.

(** X19: The summary of pending approvals is computed without writing; its
    three counts are the numbers of requests that satisfy the guard of the
    manager, the hod and the IT stage, and its total counts every request
    that waits for some stage exactly once, so it never exceeds the number
    of requests. *)
Theorem pending_summary_counts_each_request_once (now : Timestamp)
    (t : Tables) :
  exists s,
    mcp_server.pending_summary now t = (inr s, t) /\
    mcp_server.manager_pending s =
      length (filter (guard "manager") (challans t)) /\
    mcp_server.hod_pending s = length (filter (guard "hod") (challans t)) /\
    mcp_server.it_pending s =
      length (filter (guard "it_admin") (challans t)) /\
    mcp_server.total_pending s =
      length (filter (fun c => guard "manager" c || guard "hod" c
                               || guard "it_admin" c) (challans t)) /\
    (mcp_server.total_pending s <= length (challans t))%nat.
Proof.
  eexists. split; [reflexivity |]. simpl.
  rewrite !length_ordered.
  split; [reflexivity |]. split; [reflexivity |]. split; [reflexivity |].
  assert (Htotal :
    (length (filter (guard "manager") (challans t))
     + length (filter (guard "hod") (challans t))
     + length (filter (guard "it_admin") (challans t)))%nat =
    length (filter (fun c => guard "manager" c || guard "hod" c
                             || guard "it_admin" c) (challans t))).
  { rewrite (length_filter_exclusive (guard "manager") (guard "hod")).
    - rewrite (length_filter_exclusive
                 (fun c => guard "manager" c || guard "hod" c)
                 (guard "it_admin")); [reflexivity |].
      intros c H1 H2. apply orb_prop in H1 as [H1 | H1];
        pose proof (guard_determines_role _ _ _ H1 H2) as E; discriminate E.
    - intros c H1 H2.
      pose proof (guard_determines_role _ _ _ H1 H2) as E; discriminate E. }
  split; [exact Htotal |].
  change (filter (fun c => (manager_status c =? "pending")%string) (challans t))
    with (filter (guard "manager") (challans t)).
  change (filter (fun c => (manager_status c =? "approved")%string
                           && (hod_status c =? "pending")%string) (challans t))
    with (filter (guard "hod") (challans t)).
  change (filter (fun c => (manager_status c =? "approved")%string
                           && (hod_status c =? "approved")%string
                           && (it_status c =? "pending")%string) (challans t))
    with (filter (guard "it_admin") (challans t)).
  rewrite Htotal. apply filter_length_le.
Qed.

(** ** Reading never writes *)

(** X20: No reading method of the store and no reading tool changes the
    tables, whatever its arguments are and whether it finds anything,
    returns an error or raises. *)
Theorem reading_never_writes (i : Z) (name : option string)
    (role user_name : string) (now : Timestamp) (t : Tables) :
  snd (db.get_challan_status i t) = t /\
  snd (db.get_all_challans name t) = t /\
  snd (db.get_pending_approvals role t) = t /\
  snd (db.get_available_devices t) = t /\
  snd (db.get_user_by_username user_name t) = t /\
  snd (mcp_server.get_challan_status i t) = t /\
  snd (mcp_server.list_my_challans user_name t) = t /\
  snd (mcp_server.get_pending_approvals_for_role role user_name t) = t /\
  snd (mcp_server.get_available_samsung_devices t) = t /\
  snd (mcp_server.pending_summary now t) = t.
Proof.
  assert (Hget : snd (db.get_challan_status i t) = t)
    by (unfold_db; destruct (fits_sqlite_integer i); reflexivity).
  assert (Hall : snd (db.get_all_challans name t) = t)
    by (destruct (get_all_challans_rows name t) as (rows & ->); reflexivity).
  assert (Hpend : snd (db.get_pending_approvals role t) = t)
    by (destruct (get_pending_approvals_rows role t) as (rows & -> & _);
        reflexivity).
  repeat split; try assumption; try reflexivity.
  - unfold mcp_server.get_challan_status, bind.
    destruct (db.get_challan_status i t) as [[e | [c |]] t'];
      simpl in *; assumption.
  - rewrite list_my_challans_cases.
    destruct (db.select_user user_name (users t)); [| reflexivity].
    destruct (fst (db.get_all_challans (Some user_name) t)) as [e | [| c l]];
      reflexivity.
  - rewrite get_pending_approvals_for_role_cases.
    destruct (db.select_user user_name (users t)); [| reflexivity].
    destruct (negb (user_role u =? role)%string); [reflexivity |].
    destruct (fst (db.get_pending_approvals role t)) as [e | [| c l]];
      reflexivity.
  - unfold mcp_server.get_available_samsung_devices, mcp_server.reading_tool,
      db.get_available_devices, bind, get_tables, ret.
    destruct (fold_right db.insert_entry [] _); reflexivity.
Qed.

(** ** Ids beyond the 64 bits of SQLite *)

(** X21: An id that does not fit a signed 64-bit integer cannot be bound: the
    store method and the status tool, which has no [try], raise the
    overflow exception, while approve and reject catch it and return it as
    their error reply; nothing is written in any of the four. *)
Theorem unbindable_id_raises_or_is_reported (now : Timestamp) (i : Z)
    (role actor reason : string) (rm : option string) (t : Tables) :
  fits_sqlite_integer i = false ->
  db.get_challan_status i t = (inl overflow, t) /\
  mcp_server.get_challan_status i t = (inl overflow, t) /\
  mcp_server.approve_challan now i role actor rm t =
    (mcp_server.ErrorApproving overflow, t) /\
  mcp_server.reject_challan now i role actor reason t =
    (mcp_server.ErrorRejecting overflow, t).
Proof.
  intros Hfit.
  rewrite approve_challan_cases, reject_challan_cases, Hfit.
  unfold mcp_server.get_challan_status. unfold_db. rewrite Hfit. auto.
Qed.

Lemma unbindable_id_raises_or_is_reported_witness :
  db.get_challan_status (2 ^ 63) manager_approved =
    (inl overflow, manager_approved) /\
  mcp_server.get_challan_status (2 ^ 63) manager_approved =
    (inl overflow, manager_approved) /\
  mcp_server.approve_challan 120 (2 ^ 63) "manager" "john_manager" None
    manager_approved = (mcp_server.ErrorApproving overflow, manager_approved) /\
  mcp_server.reject_challan 120 (2 ^ 63) "manager" "john_manager" "no"
    manager_approved = (mcp_server.ErrorRejecting overflow, manager_approved).
Proof.
  apply (unbindable_id_raises_or_is_reported 120 (2 ^ 63) "manager"
           "john_manager" "no" None manager_approved).
  reflexivity.
Defined.

(** ** The sample data of a new database *)

Lemma str_int_injective (a b : Z) :
  NilZero.string_of_int (Z.to_int a) = NilZero.string_of_int (Z.to_int b) ->
  a = b.
Proof.
  intros H. apply DecimalZ.to_int_inj.
  assert (P : forall z,
             NilZero.int_of_string (NilZero.string_of_int (Z.to_int z)) =
             Some (Z.to_int z)).
  { intros z. apply NilZero.isi; destruct z; simpl; try discriminate;
      intros E; inversion E as [E']; revert E';
      apply Unsigned.to_uint_nonnil. }
  pose proof (P a) as Pa. rewrite H, P in Pa. congruence.
Qed.

Lemma serial_text_injective (a b : Z) :
  db.serial_text a = db.serial_text b -> a = b.
Proof.
  unfold db.serial_text. simpl. intros H. inversion H.
  apply str_int_injective. assumption.
Qed.

Lemma flow_final_status_derived (now : Timestamp) (m h i : db.StatusOption)
    (dm dh di dr : Z) :
  db.flow_final_status (db.generate_status_flow_dict now m h i dm dh di dr) =
  derive_final_status
    (db.flow_manager_status (db.generate_status_flow_dict now m h i dm dh di dr))
    (db.flow_hod_status (db.generate_status_flow_dict now m h i dm dh di dr))
    (db.flow_it_status (db.generate_status_flow_dict now m h i dm dh di dr)).
Proof. destruct m, h, i; reflexivity. Qed.

Lemma max_id_nonneg (rows : list Challan) :
  0 <= fold_right (fun c m => Z.max (id c) m) 0 rows.
Proof. induction rows as [| d rows IH]; cbn [fold_right]; lia. Qed.

Lemma max_id_base (rows : list Challan) (base : Z) :
  0 <= base ->
  fold_right (fun c m => Z.max (id c) m) base rows =
  Z.max (fold_right (fun c m => Z.max (id c) m) 0 rows) base.
Proof.
  intros Hb. induction rows as [| d rows IH]; cbn [fold_right].
  - lia.
  - rewrite IH. lia.
Qed.

Lemma next_rowid_snoc (rows : list Challan) (c : Challan) :
  id c = db.next_rowid rows -> db.next_rowid (rows ++ [c]) = id c + 1.
Proof.
  unfold db.next_rowid. intros Hid.
  rewrite fold_right_app. cbn [fold_right].
  pose proof (max_id_nonneg rows).
  rewrite max_id_base by lia. lia.
Qed.

Lemma serial_taken_snoc (sn : string) (rows : list Challan) (c : Challan) :
  db.serial_taken sn (rows ++ [c]) =
  db.serial_taken sn rows || (serial_number c =? sn)%string.
Proof.
  unfold db.serial_taken. rewrite existsb_app. simpl.
  rewrite orb_false_r. reflexivity.
Qed.

Lemma insert_samples_raised (ds : list db.SampleDraw) (e : Exception) :
  fold_left db.insert_sample ds (inl e) = inl e.
Proof. induction ds as [| d ds IH]; simpl; [reflexivity | exact IH]. Qed.

Lemma insert_samples_ok (ds : list db.SampleDraw) (rows : list Challan) :
  Forall (fun d => fits_sqlite_integer (db.draw_quantity d) = true) ds ->
  NoDup (map db.draw_serial ds) ->
  (forall d, In d ds ->
     db.serial_taken (db.serial_text (db.draw_serial d)) rows = false) ->
  fold_left db.insert_sample ds (inr rows) =
  inr (rows ++ numbered_samples (db.next_rowid rows) ds)%list.
Proof.
  revert rows.
  induction ds as [| d ds IH]; intros rows Hfit Hnd Hfree; simpl.
  - rewrite app_nil_r. reflexivity.
  - inversion Hfit as [| ? ? Hd Hfit']; subst.
    inversion Hnd as [| ? ? Hnotin Hnd']; subst.
    rewrite Hd, (Hfree d) by (left; reflexivity). simpl.
    rewrite IH; [| exact Hfit' | exact Hnd' |].
    + rewrite next_rowid_snoc by reflexivity. simpl.
      rewrite <- app_assoc. reflexivity.
    + intros d' Hin. rewrite serial_taken_snoc, (Hfree d') by (right; exact Hin).
      rewrite orb_false_l. cbn [serial_number db.sample_row].
      apply String.eqb_neq. intros E.
      apply serial_text_injective in E. apply Hnotin.
      rewrite E. apply in_map. exact Hin.
Qed.

Lemma insert_samples_collide (ds : list db.SampleDraw) (rows : list Challan) :
  Forall (fun d => fits_sqlite_integer (db.draw_quantity d) = true) ds ->
  (exists d, In d ds /\
     db.serial_taken (db.serial_text (db.draw_serial d)) rows = true) \/
  ~ NoDup (map db.draw_serial ds) ->
  fold_left db.insert_sample ds (inr rows) = inl duplicate_serial.
Proof.
  revert rows.
  induction ds as [| d ds IH]; intros rows Hfit Hdup.
  - exfalso. destruct Hdup as [(d & [] & _) | Hnd]. apply Hnd. constructor.
  - inversion Hfit as [| ? ? Hd Hfit']; subst. simpl. rewrite Hd. simpl.
    destruct (db.serial_taken (db.serial_text (db.draw_serial d)) rows) eqn:E.
    + apply insert_samples_raised.
    + apply IH; [exact Hfit' |].
      destruct (in_dec Z.eq_dec (db.draw_serial d) (map db.draw_serial ds))
        as [Hin | Hnotin].
      * left. apply in_map_iff in Hin as (d' & Hser & Hin).
        exists d'. split; [exact Hin |].
        rewrite serial_taken_snoc. cbn [serial_number db.sample_row].
        rewrite Hser, String.eqb_refl. apply orb_true_r.
      * destruct Hdup as [(d' & [<- | Hin] & Htaken) | Hnd].
        -- congruence.
        -- left. exists d'. split; [exact Hin |].
           rewrite serial_taken_snoc, Htaken. reflexivity.
        -- right. intros Hnd'. apply Hnd. simpl. constructor; assumption.
Qed.

Lemma turn_in_range (i : Z) : 1 <= i <= 20 <-> In i sample_turns.
Proof.
  unfold sample_turns. rewrite in_map_iff. split.
  - intros Hi. exists (Z.to_nat i). split; [lia |]. apply in_seq. lia.
  - intros (n & <- & Hn). apply in_seq in Hn. lia.
Qed.

Lemma NoDup_map_injective_on {A B : Type} (f : A -> B) (l : list A) :
  NoDup l ->
  (forall x y, In x l -> In y l -> f x = f y -> x = y) ->
  NoDup (map f l).
Proof.
  induction l as [| a l IH]; simpl; intros Hnd Hinj; [constructor |].
  inversion Hnd as [| ? ? Hnotin Hnd']; subst. constructor.
  - intros Hin. apply in_map_iff in Hin as (x & Hfx & Hx).
    assert (x = a) by (apply Hinj; auto). subst. contradiction.
  - apply IH; [exact Hnd' |]. intros x y Hx Hy. apply Hinj; auto.
Qed.

Lemma NoDup_map_injective_inv {A B : Type} (f : A -> B) (l : list A)
    (x y : A) :
  NoDup (map f l) -> In x l -> In y l -> f x = f y -> x = y.
Proof.
  induction l as [| a l IH]; simpl; intros Hnd Hx Hy Hf; [tauto |].
  inversion Hnd as [| ? ? Hnotin Hnd']; subst.
  destruct Hx as [-> | Hx], Hy as [-> | Hy].
  - reflexivity.
  - exfalso. apply Hnotin. rewrite Hf. apply in_map. exact Hy.
  - exfalso. apply Hnotin. rewrite <- Hf. apply in_map. exact Hx.
  - apply IH; assumption.
Qed.

Lemma sample_turns_NoDup : NoDup sample_turns.
Proof.
  unfold sample_turns. apply NoDup_map_injective_on; [apply seq_NoDup |].
  intros x y _ _ H. lia.
Qed.

(** X22: A new database whose twenty random serial numbers are pairwise
    distinct and whose quantities SQLite can store: the constructor
    succeeds whatever the tables held before; the users are the ten sample
    users numbered 1 to 10, the devices the fourteen sample devices, and
    the requests are the twenty sample rows, request [i] built from the
    draws of turn [i]; serial numbers and ids are pairwise distinct and
    every request stores the derived final status. *)
Theorem new_database_holds_consistent_samples (draw : Z -> db.SampleDraw)
    (t : Tables) :
  (forall i, 1 <= i <= 20 ->
     fits_sqlite_integer (db.draw_quantity (draw i)) = true) ->
  (forall i j, 1 <= i <= 20 -> 1 <= j <= 20 ->
     db.draw_serial (draw i) = db.draw_serial (draw j) -> i = j) ->
  exists t',
    db.ChallanDatabase draw t = (inr tt, t') /\
    users t' = sample_users /\
    map db.entry_of (devices t') =
      map (fun d => {| db.ce_device_type := fst (fst d);
                       db.ce_device_model := snd (fst d);
                       db.ce_category := snd d |}) db.samsung_devices /\
    challans t' = map (fun i => db.sample_row i (draw i)) sample_turns /\
    serials_unique (challans t') /\ ids_unique (challans t') /\
    Forall (fun c => final_status c = derived_final_status c) (challans t').
Proof.
  intros Hfit Hser.
  assert (Hrows :
    fold_left db.insert_sample (map draw sample_turns) (inr []) =
    inr (map (fun i => db.sample_row i (draw i)) sample_turns)).
  { rewrite insert_samples_ok.
    - reflexivity.
    - apply Forall_map, Forall_forall. intros i Hi.
      apply Hfit, turn_in_range, Hi.
    - rewrite map_map.
      apply NoDup_map_injective_on; [apply sample_turns_NoDup |].
      intros i j Hi Hj. apply Hser; apply turn_in_range; assumption.
    - reflexivity. }
  eexists. split.
  - unfold db.ChallanDatabase, db.populate_sample_data, db.init_db, bind.
    cbn [users challans devices].
    change (map draw (map Z.of_nat (seq 1 20)))
      with (map draw sample_turns).
    rewrite Hrows. reflexivity.
  - cbn [users devices challans].
    split; [reflexivity |]. split; [reflexivity |]. split; [reflexivity |].
    split; [| split].
    + unfold serials_unique. rewrite map_map. cbn [serial_number db.sample_row].
      apply NoDup_map_injective_on; [apply sample_turns_NoDup |].
      intros i j Hi Hj E. apply serial_text_injective in E.
      apply Hser; try apply turn_in_range; assumption.
    + unfold ids_unique. rewrite map_map. cbn [id db.sample_row].
      rewrite map_id. apply sample_turns_NoDup.
    + apply Forall_map, Forall_forall. intros i _.
      unfold derived_final_status. cbn [final_status manager_status hod_status
        it_status db.sample_row].
      apply flow_final_status_derived.
Qed.

Lemma new_database_holds_consistent_samples_witness :
  exists t',
    db.ChallanDatabase example_draw manager_rejected = (inr tt, t') /\
    users t' = sample_users /\
    challans t' = map (fun i => db.sample_row i (example_draw i)) sample_turns /\
    serials_unique (challans t') /\
    Forall (fun c => final_status c = derived_final_status c) (challans t').
Proof.
  destruct (new_database_holds_consistent_samples example_draw
              manager_rejected) as (t' & H1 & H2 & _ & H3 & H4 & _ & H5).
  - intros i _. reflexivity.
  - intros i j _ _ E. cbn [db.draw_serial example_draw] in E. lia.
  - exists t'. repeat split; assumption.
Defined.

(** X23: When two turns of the sample loop draw the same serial number (and
    the quantities are ones SQLite can store), the constructor raises the
    UNIQUE-constraint error of [serial_number] and commits none of the
    sample data: the three tables are left empty, whatever they held
    before. *)
Theorem colliding_sample_serials_leave_database_empty
    (draw : Z -> db.SampleDraw) (t : Tables) (i j : Z) :
  (forall k, 1 <= k <= 20 ->
     fits_sqlite_integer (db.draw_quantity (draw k)) = true) ->
  1 <= i <= 20 -> 1 <= j <= 20 -> i <> j ->
  db.draw_serial (draw i) = db.draw_serial (draw j) ->
  db.ChallanDatabase draw t =
  (inl duplicate_serial, {| devices := []; users := []; challans := [] |}).
Proof.
  intros Hfit Hi Hj Hne Hser.
  assert (Hrows :
    fold_left db.insert_sample (map draw sample_turns) (inr []) =
    inl duplicate_serial).
  { apply insert_samples_collide.
    - apply Forall_map, Forall_forall. intros k Hk.
      apply Hfit, turn_in_range, Hk.
    - right. rewrite map_map. intros Hnd. apply Hne.
      apply (NoDup_map_injective_inv
               (fun k => db.draw_serial (draw k)) sample_turns);
        try apply turn_in_range; assumption. }
  unfold db.ChallanDatabase, db.populate_sample_data, db.init_db, bind.
  cbn [users challans devices].
  change (map draw (map Z.of_nat (seq 1 20))) with (map draw sample_turns).
  rewrite Hrows. reflexivity.
Qed.

Lemma colliding_sample_serials_leave_database_empty_witness :
  db.ChallanDatabase colliding_draw manager_rejected =
  (inl duplicate_serial, {| devices := []; users := []; challans := [] |}).
Proof.
  apply (colliding_sample_serials_leave_database_empty colliding_draw
           manager_rejected 3 7).
  - reflexivity.
  - lia.
  - lia.
  - discriminate.
  - reflexivity.
Defined.

(** ** How decisions move a request between the lists of pending work *)

Lemma listed_iff (role : string) (t : Tables) (c : Challan) :
  listed role t c <-> In c (challans t) /\ guard role c = true.
Proof.
  unfold listed.
  destruct (get_pending_approvals_rows role t) as (rows & E & Hrows).
  split.
  - intros (rows' & E' & Hin). rewrite E in E'. inversion E'; subst.
    apply Hrows. exact Hin.
  - intros H. exists rows. split; [exact E | apply Hrows; exact H].
Qed.

Lemma reject_accepted (now : Timestamp) (i : Z) (role actor reason : string)
    (t : Tables) (c : Challan) (u : User) :
  db.get_challan_status i t = (inr (Some c), t) ->
  db.get_user_by_username actor t = (inr (Some u), t) ->
  user_role u = role ->
  exists t',
    mcp_server.reject_challan now i role actor reason t =
      (mcp_server.Rejected i actor role reason, t') /\
    db.get_challan_status i t' =
      (inr (Some (stage_setter role "rejected" now (Some reason) c)), t').
Proof.
  intros Hget Husr Hrole.
  apply get_challan_status_found in Hget as (Hfit & Hsel & _).
  assert (Hu : db.select_user actor (users t) = Some u)
    by (unfold_db; congruence).
  rewrite reject_challan_cases, Hfit, Hsel, Hu.
  apply String.eqb_eq in Hrole. rewrite Hrole. simpl negb. cbv iota.
  eexists. split; [reflexivity |].
  rewrite get_challan_status_fits by exact Hfit. cbn [challans with_challans].
  rewrite select_after_update by (intros; apply stage_setter_id).
  rewrite Hsel. reflexivity.
Qed.

Lemma found_is_stored (i : Z) (t : Tables) (c : Challan) :
  db.get_challan_status i t = (inr (Some c), t) -> In c (challans t).
Proof.
  intros H. apply get_challan_status_found in H as (_ & Hsel & _).
  apply select_challan_In in Hsel. tauto.
Qed.

(** X24: A request that a create call has just stored is pending for the
    manager and for no other role: it is in the list of pending work of
    the manager role and in the list of no other role. *)
Theorem new_request_is_pending_for_manager_only (now : Timestamp)
    (dt dm sn : string) (q : Z) (p rb : string) (t : Tables) (i : Z) :
  fst (mcp_server.create_challan now dt dm sn q p rb t) =
    mcp_server.ChallanCreated i dm rb ->
  let t' := snd (mcp_server.create_challan now dt dm sn q p rb t) in
  exists c,
    In c (challans t') /\ id c = i /\ serial_number c = sn /\
    forall role, listed role t' c <-> role = "manager".
Proof.
  rewrite create_challan_cases. cbv zeta.
  destruct (db.select_user rb (users t)); [| discriminate].
  destruct (fits_sqlite_integer q); [| discriminate].
  destruct (db.serial_taken sn (challans t)); [discriminate |].
  cbn [fst snd]. intros H. inversion H; subst i; clear H.
  eexists. split; [apply in_or_app; right; left; reflexivity |].
  split; [reflexivity |]. split; [reflexivity |].
  intros role. rewrite listed_iff. cbn [challans with_challans].
  split.
  - intros [_ Hg]. unfold guard in Hg. simpl in Hg.
    destruct (String.eqb_spec role "manager"); [assumption |].
    destruct (role =? "hod")%string; [discriminate |].
    destruct (role =? "it_admin")%string; discriminate.
  - intros ->. split; [apply in_or_app; right; left; reflexivity |].
    reflexivity.
Qed.

Lemma new_request_is_pending_for_manager_only_witness :
  exists c,
    In c (challans one_request) /\ id c = 1 /\
    serial_number c = "SN1000000001" /\
    forall role, listed role one_request c <-> role = "manager".
Proof.
  apply (new_request_is_pending_for_manager_only 100 "phone"
           "Samsung Galaxy S23" "SN1000000001" 1 "Field sales team"
           "alice_sales" no_requests 1).
  reflexivity.
Defined.

(** X25: An accepted approval takes the request out of the list of pending
    work of the approving role and, when the next stage is still pending,
    puts it into the list of the next role: from manager to hod, from hod
    to it_admin; after the approval of the IT stage the request is in no
    list. *)
Theorem approval_hands_request_to_next_stage (now : Timestamp) (i : Z)
    (role actor : string) (rm : option string) (t : Tables)
    (c : Challan) (u : User) :
  is_stage role ->
  db.get_challan_status i t = (inr (Some c), t) ->
  db.get_user_by_username actor t = (inr (Some u), t) ->
  user_role u = role ->
  earlier_stages_approved role c = true ->
  let t' := snd (mcp_server.approve_challan now i role actor rm t) in
  exists c',
    db.get_challan_status i t' = (inr (Some c'), t') /\
    ~ listed role t' c' /\
    (role = "manager" -> hod_status c = "pending" -> listed "hod" t' c') /\
    (role = "hod" -> it_status c = "pending" -> listed "it_admin" t' c') /\
    (role = "it_admin" -> forall r, ~ listed r t' c').
Proof.
  intros Hstage Hget Husr Hrole Hearlier. cbv zeta.
  destruct (approve_accepted now i role actor rm t c u Hstage Hget Husr Hrole
              Hearlier) as (t' & E & Hget' & _).
  rewrite E. cbn [snd].
  exists (stage_setter role "approved" now rm c).
  split; [exact Hget' |].
  pose proof (found_is_stored _ _ _ Hget') as Hin.
  unfold earlier_stages_approved in Hearlier.
  destruct Hstage as [-> | [-> | ->]]; simpl in Hearlier;
    repeat split; try discriminate; rewrite ?listed_iff;
    unfold guard; simpl.
  - intros [_ H]; discriminate H.
  - intros _ ->. auto.
  - intros [_ H]. rewrite andb_false_r in H. discriminate H.
  - intros _ ->. rewrite Hearlier. auto.
  - intros [_ H]. rewrite andb_false_r in H. discriminate H.
  - intros _ r. rewrite listed_iff. unfold guard. simpl.
    apply andb_prop in Hearlier as [Hm Hh].
    apply String.eqb_eq in Hm, Hh. rewrite Hm, Hh. simpl.
    destruct (r =? "manager")%string; [intros [_ H]; discriminate H |].
    destruct (r =? "hod")%string; [intros [_ H]; discriminate H |].
    destruct (r =? "it_admin")%string; intros [_ H]; discriminate H.
Qed.

Lemma approval_hands_request_to_next_stage_witness :
  exists c',
    db.get_challan_status 1 manager_approved =
      (inr (Some c'), manager_approved) /\
    ~ listed "manager" manager_approved c' /\
    listed "hod" manager_approved c'.
Proof.
  destruct (approval_hands_request_to_next_stage 110 1 "manager"
              "john_manager" None one_request _ _ (or_introl eq_refl)
              eq_refl eq_refl eq_refl eq_refl)
    as (c' & Hget & Hout & Hin & _).
  exists c'. split; [exact Hget |]. split; [exact Hout |].
  apply Hin; reflexivity.
Defined.

(** X26: After an accepted rejection the request is in the list of pending
    work neither of the rejecting role nor of any later role: rejected by
    the manager it is in no list; rejected by the hod it is in neither the
    hod list nor the it_admin list; rejected by the IT stage it is not in
    the it_admin list. *)
Theorem rejected_request_leaves_pending_lists (now : Timestamp) (i : Z)
    (role actor reason : string) (t : Tables) (c : Challan) (u : User) :
  is_stage role ->
  db.get_challan_status i t = (inr (Some c), t) ->
  db.get_user_by_username actor t = (inr (Some u), t) ->
  user_role u = role ->
  let t' := snd (mcp_server.reject_challan now i role actor reason t) in
  exists c',
    db.get_challan_status i t' = (inr (Some c'), t') /\
    ~ listed role t' c' /\
    (role = "manager" -> forall r, ~ listed r t' c') /\
    (role = "hod" -> ~ listed "it_admin" t' c').
Proof.
  intros Hstage Hget Husr Hrole. cbv zeta.
  destruct (reject_accepted now i role actor reason t c u Hget Husr Hrole)
    as (t' & E & Hget').
  rewrite E. cbn [snd].
  exists (stage_setter role "rejected" now (Some reason) c).
  split; [exact Hget' |].
  destruct Hstage as [-> | [-> | ->]];
    repeat split; try discriminate; rewrite ?listed_iff;
    unfold guard; simpl.
  - intros [_ H]; discriminate H.
  - intros _ r. rewrite listed_iff. unfold guard. simpl.
    destruct (r =? "manager")%string; [intros [_ H]; discriminate H |].
    destruct (r =? "hod")%string; [intros [_ H]; discriminate H |].
    destruct (r =? "it_admin")%string; intros [_ H]; discriminate H.
  - intros [_ H]. rewrite andb_false_r in H. discriminate H.
  - intros _ [_ H]. rewrite andb_false_r in H. discriminate H.
  - intros [_ H]. rewrite andb_false_r in H. discriminate H.
Qed.

Lemma rejected_request_leaves_pending_lists_witness :
  exists c',
    db.get_challan_status 1 manager_rejected =
      (inr (Some c'), manager_rejected) /\
    forall r, ~ listed r manager_rejected c'.
Proof.
  destruct (rejected_request_leaves_pending_lists 110 1 "manager"
              "john_manager" "Not aligned with department goals" one_request
              _ _ (or_introl eq_refl) eq_refl eq_refl eq_refl)
    as (c' & Hget & _ & Hnone & _).
  exists c'. split; [exact Hget | apply Hnone; reflexivity].
Defined.
